(** * py_gql: a shallow embedding of the request pipeline and the type system

    Sources embedded here:
    - src/py_gql/schema/types.py   (GraphQLType, NonNullType, ListType,
      Argument, InputField, EnumValue, EnumType, ScalarType, unwrap_type)
    - src/py_gql/_graphql.py       (do_graphql)
    - src/py_gql/validation/validate.py (ValidationResult, validate_ast,
      default_validator)

    Python objects are modelled by value; Python exceptions by the
    [exn] inductive and fallible code by the [outcome] type. *)

From Stdlib Require Import ZArith Lia.
From stdpp Require Import base list gmap strings countable.
From stdpp Require pretty.


Set Warnings "-register-all".

(* ------------------------------------------------------------------ *)
(** ** Python values and exceptions *)

(** Hashable Python values used as enum internal values and defaults. *)
Inductive pyval :=
| PyNone
| PyInt (z : Z)
| PyStr (s : string).

#[global] Instance pyval_eq_dec : EqDecision pyval.
Proof. solve_decision. Defined.

#[global] Instance pyval_countable : Countable pyval.
Proof.
  refine (inj_countable'
    (fun v => match v with
              | PyNone => inl ()
              | PyInt z => inr (inl z)
              | PyStr s => inr (inr s)
              end)
    (fun x => match x with
              | inl _ => PyNone
              | inr (inl z) => PyInt z
              | inr (inr s) => PyStr s
              end) _).
  by intros [].
Defined.

(** The exception classes met on the paths embedded here: builtin ones
    ([ValueError] to [KeyError], and [OtherError] for any other builtin
    exception) and the classes of [py_gql.exc].  Some classes of
    [py_gql.exc] derive from [ValueError] (see [is_value_or_type_error]). *)
Inductive exn :=
| ValueError (msg : string)
| TypeError (msg : string)
| AssertionError
| AttributeError (msg : string)
| KeyError
| GraphQLSyntaxError (msg : string)
| ValidationError (msg : string)
| VariablesCoercionError (errors : list exn)
| ExecutionError (msg : string)
| SchemaError (msg : string)
| ScalarSerializationError (msg : string)
| ScalarParsingError (msg : string)
| UnknownEnumValue (msg : string)
| OtherError (msg : string).

(** Result of running a Python statement: a value, or a raised exception. *)
Inductive outcome (A : Type) :=
| Return (a : A)
| Raise (e : exn).
Arguments Return {A} a.
Arguments Raise {A} e.

Definition obind {A B} (o : outcome A) (k : A -> outcome B) : outcome B :=
  match o with
  | Return a => k a
  | Raise e => Raise e
  end.

Notation "'let!' x := o 'in' k" := (obind o (fun x => k))
  (at level 200, x name, o at level 100, k at level 200).

Definition is_raise {A} (o : outcome A) : bool :=
  match o with Raise _ => true | Return _ => false end.

(* ------------------------------------------------------------------ *)
(** ** GraphQL types (types.py, GraphQLType, NamedType, ListType, NonNullType) *)

Inductive named_kind :=
| KScalar | KEnum | KObject | KInterface | KUnion | KInputObject.

#[global] Instance named_kind_eq_dec : EqDecision named_kind.
Proof. solve_decision. Defined.

(** A named type instance carries an instance id, standing for Python
    object identity: two distinct instances have distinct ids.  Wrapping
    types hold their (resolved) wrapped type. *)
Inductive GraphQLType :=
| NamedType (id : nat) (kind : named_kind) (name : string)
| ListType (type_ : GraphQLType)
| NonNullType (type_ : GraphQLType).

#[global] Instance GraphQLType_eq_dec : EqDecision GraphQLType.
Proof. solve_decision. Defined.

(** Python's [is]: the same object.  Distinct named instances have
    distinct ids; wrapping values are compared as the objects they are. *)
Definition py_is (a b : GraphQLType) : bool := bool_decide (a = b).

(** [isinstance(self, (ListType, NonNullType))] *)
Definition is_wrapping (t : GraphQLType) : bool :=
  match t with ListType _ | NonNullType _ => true | NamedType _ _ _ => false end.

(** [self.__class__ == lhs.__class__], on the wrapping classes. *)
Definition same_wrapping_class (a b : GraphQLType) : bool :=
  match a, b with
  | ListType _, ListType _ => true
  | NonNullType _, NonNullType _ => true
  | _, _ => false
  end.

(** [GraphQLType.__eq__]:
    [self is lhs or (isinstance(self, (ListType, NonNullType))
                     and self.__class__ == lhs.__class__
                     and self.type == lhs.type)] *)
Fixpoint GraphQLType_eq (self lhs : GraphQLType) : bool :=
  py_is self lhs ||
  (is_wrapping self && same_wrapping_class self lhs &&
   match self, lhs with
   | ListType a, ListType b => GraphQLType_eq a b
   | NonNullType a, NonNullType b => GraphQLType_eq a b
   | _, _ => false
   end).

(** [unwrap_type] *)
Fixpoint unwrap_type (t : GraphQLType) : GraphQLType :=
  match t with
  | ListType t' => unwrap_type t'
  | NonNullType t' => unwrap_type t'
  | NamedType _ _ _ => t
  end.

(** [nullable_type] *)
Definition nullable_type (t : GraphQLType) : GraphQLType :=
  match t with NonNullType t' => t' | _ => t end.

(** The [Lazy[GraphQLType]] argument of the wrapping constructors:
    a type, or a callable returning one ([_utils.lazy] calls it). *)
Inductive Lazy :=
| Eager (t : GraphQLType)
| Thunk (f : unit -> GraphQLType).

Definition lazy (l : Lazy) : GraphQLType :=
  match l with Eager t => t | Thunk f => f tt end.

(** [NonNullType.__init__]: [assert not isinstance(type_, NonNullType)],
    on the argument as given; the object's [type] property is [lazy(type_)]. *)
Definition NonNullType_init (type_ : Lazy) : outcome GraphQLType :=
  match type_ with
  | Eager (NonNullType _) => Raise AssertionError
  | _ => Return (NonNullType (lazy type_))
  end.

(** [ListType.__init__]: no check. *)
Definition ListType_init (type_ : Lazy) : outcome GraphQLType :=
  Return (ListType (lazy type_)).

(** Wrapping a type in a finite sequence of constructors. *)
Inductive wrapper := WList | WNonNull.

Definition apply_wrapper (w : wrapper) (t : GraphQLType) : GraphQLType :=
  match w with WList => ListType t | WNonNull => NonNullType t end.

Definition wrap_all (ws : list wrapper) (t : GraphQLType) : GraphQLType :=
  fold_right apply_wrapper t ws.

(* ------------------------------------------------------------------ *)
(** ** Argument and InputField (types.py) *)

(** [_default_value] is [None] for the [_UNSET] sentinel. *)
Record Argument := {
  arg_name : string;
  arg_type : GraphQLType;
  arg_has_default_value : bool;
  arg_default_value_ : option pyval
}.

(** [Argument.__init__]: [self.has_default_value = default_value is not _UNSET]. *)
Definition Argument_init (name : string) (type_ : GraphQLType)
    (default_value : option pyval) : Argument :=
  {| arg_name := name; arg_type := type_;
     arg_has_default_value := bool_decide (default_value <> None);
     arg_default_value_ := default_value |}.

(** The [default_value] property getter. *)
Definition Argument_default_value (a : Argument) : outcome pyval :=
  match arg_default_value_ a with
  | None => Raise (AttributeError "No default value")
  | Some v => Return v
  end.

(** The [default_value] setter: only [_default_value] is written. *)
Definition Argument_set_default_value (a : Argument) (v : pyval) : Argument :=
  {| arg_name := arg_name a; arg_type := arg_type a;
     arg_has_default_value := arg_has_default_value a;
     arg_default_value_ := Some v |}.

(** The [default_value] deleter: [self._default_value = _UNSET]. *)
Definition Argument_del_default_value (a : Argument) : Argument :=
  {| arg_name := arg_name a; arg_type := arg_type a;
     arg_has_default_value := arg_has_default_value a;
     arg_default_value_ := None |}.

Definition is_NonNullType (t : GraphQLType) : bool :=
  match t with NonNullType _ => true | _ => false end.

(** [required]: [isinstance(self.type, NonNullType) and self._default_value is _UNSET]. *)
Definition Argument_required (a : Argument) : bool :=
  is_NonNullType (arg_type a) && bool_decide (arg_default_value_ a = None).

Record InputField := {
  if_name : string;
  if_type : GraphQLType;
  if_has_default_value : bool;
  if_default_value_ : option pyval
}.

Definition InputField_init (name : string) (type_ : GraphQLType)
    (default_value : option pyval) : InputField :=
  {| if_name := name; if_type := type_;
     if_has_default_value := bool_decide (default_value <> None);
     if_default_value_ := default_value |}.

Definition InputField_set_default_value (f : InputField) (v : pyval) : InputField :=
  {| if_name := if_name f; if_type := if_type f;
     if_has_default_value := if_has_default_value f;
     if_default_value_ := Some v |}.

Definition InputField_del_default_value (f : InputField) : InputField :=
  {| if_name := if_name f; if_type := if_type f;
     if_has_default_value := if_has_default_value f;
     if_default_value_ := None |}.

Definition InputField_required (f : InputField) : bool :=
  is_NonNullType (if_type f) && bool_decide (if_default_value_ f = None).

(** Built-in scalar instances used in the concrete checks below. *)
Definition Int : GraphQLType := NamedType 1 KScalar "Int".
Definition String_ : GraphQLType := NamedType 2 KScalar "String".

(* ------------------------------------------------------------------ *)
(** ** ScalarType (types.py) *)

(** [str(err)] *)
Definition exn_str (e : exn) : string :=
  match e with
  | ValueError m | TypeError m | AttributeError m | GraphQLSyntaxError m
  | ValidationError m | ExecutionError m | SchemaError m
  | ScalarSerializationError m | ScalarParsingError m | UnknownEnumValue m
  | OtherError m => m
  | _ => ""
  end.

(** The user-provided functions of a scalar; each may raise. *)
Record ScalarType := {
  scalar_name : string;
  _serialize : pyval -> outcome pyval;
  _parse : pyval -> outcome pyval
}.

Section ScalarTypes.

(** [isinstance(err, ValueError)] for the classes of [py_gql.exc], whose
    module lies outside the sources embedded here: it is a parameter, and
    the properties below assume only what is known of it
    ([ScalarSerializationError] and [ScalarParsingError] derive from
    [ValueError]). *)
Variable exc_is_value_error : exn -> bool.

(** [except (ValueError, TypeError)]: [isinstance(err, (ValueError, TypeError))] *)
Definition is_value_or_type_error (e : exn) : bool :=
  match e with
  | ValueError _ | TypeError _ => true
  | AssertionError | AttributeError _ | KeyError | OtherError _ => false
  | _ => exc_is_value_error e
  end.

(** [ScalarType.serialize]: [try: return self._serialize(value)
    except (ValueError, TypeError) as err: raise ScalarSerializationError(str(err))] *)
Definition ScalarType_serialize (self : ScalarType) (value : pyval) : outcome pyval :=
  match _serialize self value with
  | Return r => Return r
  | Raise err =>
      if is_value_or_type_error err
      then Raise (ScalarSerializationError (exn_str err))
      else Raise err
  end.

(** [ScalarType.parse] *)
Definition ScalarType_parse (self : ScalarType) (value : pyval) : outcome pyval :=
  match _parse self value with
  | Return r => Return r
  | Raise err =>
      if is_value_or_type_error err
      then Raise (ScalarParsingError (exn_str err))
      else Raise err
  end.

End ScalarTypes.

(* ------------------------------------------------------------------ *)
(** ** EnumValue and EnumType (types.py) *)

Record EnumValue := {
  ev_name : string;
  ev_value : pyval;
  ev_deprecation_reason : option string
}.

(** [EnumValue.__init__]: [assert name not in ("true", "false", "null")];
    the value defaults to the name. *)
Definition EnumValue_init (name : string) (value : option pyval)
    (deprecation_reason : option string) : outcome EnumValue :=
  if decide (name ∈ ["true"; "false"; "null"]) then Raise AssertionError
  else Return {| ev_name := name;
                 ev_value := default (PyStr name) value;
                 ev_deprecation_reason := deprecation_reason |}.

(** The keyword arguments carried by a dict definition, for
    [cls( **definition)].  Its keys are strings and its ["name"] is a string,
    as [Dict[str, Any]] and the signature of [__init__] ask. *)
Record enum_kwargs := {
  kw_name : option string;                         (** [definition["name"]], if present *)
  kw_value : option pyval;                         (** [definition["value"]], if present *)
  kw_deprecation_reason : option (option string);  (** [definition["deprecation_reason"]], if present *)
  kw_other_keys : list string                      (** the other keys, in the dict's order *)
}.

(** [cls( **definition)]: the keywords are bound first, which fails on a
    key that is not a parameter of [__init__] and then on a missing
    [name]; then [__init__] runs.  ([description] and [node] are accepted
    and not modelled.) *)
Definition EnumValue_call_kwargs (kw : enum_kwargs) : outcome EnumValue :=
  match list_find (fun k => k ∉ ["description"; "node"]) (kw_other_keys kw) with
  | Some (_, k) =>
      Raise (TypeError ("__init__() got an unexpected keyword argument '" ++ k ++ "'"))
  | None =>
      match kw_name kw with
      | None => Raise (TypeError "__init__() missing 1 required positional argument: 'name'")
      | Some n => EnumValue_init n (kw_value kw) (default None (kw_deprecation_reason kw))
      end
  end.

(** The definitions [EnumValue.from_def] is given: an [EnumValue]
    instance, a string, a tuple (of two items, a name and a value, or of
    another length), a dict, or any other object (with its [str]). *)
Inductive enum_def :=
| DefEnumValue (v : EnumValue)
| DefName (name : string)
| DefPair (name : string) (value : pyval)
| DefDict (kw : enum_kwargs)
| DefBadTuple (items : list pyval) (Hlen : length items <> 2)
| DefOther (str_definition : string).

(** [EnumValue.from_def]; [name, value = definition] on a tuple whose
    length is not 2 raises [ValueError] (CPython 3.8 to 3.12 messages). *)
Definition EnumValue_from_def (d : enum_def) : outcome EnumValue :=
  match d with
  | DefEnumValue v => Return v
  | DefName s => EnumValue_init s (Some (PyStr s)) None
  | DefPair n v => EnumValue_init n (Some v) None
  | DefDict kw => EnumValue_call_kwargs kw
  | DefBadTuple items _ =>
      Raise (ValueError
               (if length items <? 2
                then "not enough values to unpack (expected 2, got " ++
                       pretty.pretty (length items) ++ ")"
                else "too many values to unpack (expected 2)"))
  | DefOther str_d => Raise (TypeError ("Invalid enum value definition " ++ str_d))
  end.

(** The name and the value a definition declares: those of the
    [EnumValue] [from_def] makes of it when it accepts it (placeholders
    for the definitions it always rejects). *)
Definition def_name (d : enum_def) : string :=
  match d with
  | DefEnumValue v => ev_name v
  | DefName s => s
  | DefPair n _ => n
  | DefDict kw => default "" (kw_name kw)
  | DefBadTuple _ _ | DefOther _ => ""
  end.

Definition def_value (d : enum_def) : pyval :=
  match d with
  | DefEnumValue v => ev_value v
  | DefName s => PyStr s
  | DefPair _ v => v
  | DefDict kw => default (PyStr (default "" (kw_name kw))) (kw_value kw)
  | DefBadTuple _ _ | DefOther _ => PyNone
  end.

Record EnumType := {
  enum_name : string;
  enum_values : list EnumValue;                (** [self.values] *)
  enum__values : gmap string EnumValue;        (** [self._values] *)
  enum__reverse_values : gmap pyval EnumValue  (** [self._reverse_values] *)
}.

(** The loop of [EnumType._set_values]. *)
Fixpoint set_values_loop (defs : list enum_def) (values : list EnumValue)
    (vmap : gmap string EnumValue) (rmap : gmap pyval EnumValue)
    : outcome (list EnumValue * gmap string EnumValue * gmap pyval EnumValue) :=
  match defs with
  | [] => Return (values, vmap, rmap)
  | d :: defs' =>
      let! v := EnumValue_from_def d in
      if decide (is_Some (vmap !! ev_name v)) then Raise AssertionError
      else set_values_loop defs' (values ++ [v])
             (<[ev_name v := v]> vmap) (<[ev_value v := v]> rmap)
  end.

(** [EnumType.__init__] *)
Definition EnumType_init (name : string) (values : list enum_def) : outcome EnumType :=
  obind (set_values_loop values [] ∅ ∅) (fun r =>
    match r with
    | (vs, vmap, rmap) =>
        Return {| enum_name := name; enum_values := vs;
                  enum__values := vmap; enum__reverse_values := rmap |}
    end).

(** [EnumType.get_value] *)
Definition EnumType_get_value (self : EnumType) (name : string) : outcome pyval :=
  match enum__values self !! name with
  | Some v => Return (ev_value v)
  | None => Raise (UnknownEnumValue
                     ("Invalid name " ++ name ++ " for enum " ++ enum_name self))
  end.

(* ------------------------------------------------------------------ *)
(** ** The request entry point (_graphql.py, validation/validate.py) *)

(** [GraphQLResult(data, errors)]; [data = None] is "no data". *)
Record GraphQLResult := {
  gr_data : option pyval;
  gr_errors : list exn
}.

(** What an executor's [execute] returns: a [GraphQLResult] for the
    synchronous executor, or a wrapper such as an awaitable (a handle). *)
Inductive exec_value :=
| Sync (r : GraphQLResult)
| Awaitable (handle : nat).

(** [ValidationResult]; [__bool__] is [not self.errors]. *)
Record ValidationResult := { vr_errors : list exn }.

Definition ValidationResult_bool (vr : ValidationResult) : bool :=
  bool_decide (vr_errors vr = []).

(** The steps of the pipeline, recorded in the order they are invoked. *)
Inductive step := StepSchemaValidate | StepParse | StepValidate | StepExecute.

#[global] Instance step_eq_dec : EqDecision step.
Proof. solve_decision. Defined.

(** A small exception monad that also logs the steps invoked. *)
Definition M (A : Type) : Type := list step -> outcome A * list step.

Definition ret {A} (a : A) : M A := fun log => (Return a, log).
Definition raise {A} (e : exn) : M A := fun log => (Raise e, log).
Definition bind {A B} (m : M A) (k : A -> M B) : M B :=
  fun log => match m log with
             | (Return a, log') => k a log'
             | (Raise e, log') => (Raise e, log')
             end.

(** Invoking one step of the pipeline. *)
Definition call {A} (s : step) (o : outcome A) : M A :=
  fun log => (o, (log ++ [s])%list).

(** [try: body except ...: handler] *)
Definition try_except {A} (body : M A) (handler : exn -> M A) : M A :=
  fun log => match body log with
             | (Return a, log') => (Return a, log')
             | (Raise e, log') => handler e log'
             end.

Notation "'let*' x := m 'in' k" := (bind m (fun x => k))
  (at level 200, x name, m at level 100, k at level 200).

Section Pipeline.
(** The collaborators that live outside the embedded files: schema
    validation, the parser and the executor, with their own results. *)
Variables (Schema Document Variables Root Context Middleware : Type).
Variable Schema_validate : Schema -> outcome unit.
Variable parse : string -> bool -> outcome Document.
Variable execute : Schema -> Document -> option string -> option Variables ->
                   Root -> Context -> list Middleware -> outcome exec_value.

(** A validator callable: [(schema, document, variables) -> errors]. *)
Definition Validator : Type :=
  Schema -> Document -> option Variables -> outcome (list exn).

Variable default_validator : Validator.

(** [[error for validator in validators for error in validator(...)]] *)
Fixpoint run_validators (validators : list Validator) (schema : Schema)
    (document : Document) (variables : option Variables) : outcome (list exn) :=
  match validators with
  | [] => Return []
  | v :: vs =>
      let! errs := v schema document variables in
      let! rest := run_validators vs schema document variables in
      Return (errs ++ rest)%list
  end.

(** [validate_ast] *)
Definition validate_ast (schema : Schema) (document : Document)
    (validators : option (list Validator)) (variables : option Variables)
    : outcome ValidationResult :=
  let validators := default [default_validator] validators in
  let! errs := run_validators validators schema document variables in
  Return {| vr_errors := errs |}.

(** The [except] clauses of [do_graphql]. *)
Definition do_graphql_handler (err : exn) : M exec_value :=
  match err with
  | GraphQLSyntaxError _ => ret (Sync {| gr_data := None; gr_errors := [err] |})
  | VariablesCoercionError errs => ret (Sync {| gr_data := None; gr_errors := errs |})
  | ExecutionError _ => ret (Sync {| gr_data := None; gr_errors := [err] |})
  | _ => raise err
  end.

(** The body of the [try] block of [do_graphql]. *)
Definition do_graphql_body (schema : Schema) (document : string)
    (variables : option Variables) (operation_name : option string)
    (root : Root) (context : Context) (validators : option (list Validator))
    (middlewares : list Middleware) : M exec_value :=
  let* ast := call StepParse (parse document false) in
  let* validation_result :=
    call StepValidate (validate_ast schema ast validators None) in
  if negb (ValidationResult_bool validation_result)
  then ret (Sync {| gr_data := None; gr_errors := vr_errors validation_result |})
  else call StepExecute
         (execute schema ast operation_name variables root context middlewares).

(** [do_graphql]: [schema.validate()] runs before the [try] block. *)
Definition do_graphql (schema : Schema) (document : string)
    (variables : option Variables) (operation_name : option string)
    (root : Root) (context : Context) (validators : option (list Validator))
    (middlewares : list Middleware) : M exec_value :=
  let* _u := call StepSchemaValidate (Schema_validate schema) in
  try_except
    (do_graphql_body schema document variables operation_name root context
       validators middlewares)
    do_graphql_handler.

(** The exception classes [do_graphql] catches. *)
Definition caught_by_do_graphql (e : exn) : bool :=
  match e with
  | GraphQLSyntaxError _ | VariablesCoercionError _ | ExecutionError _ => true
  | _ => false
  end.

(** The errors list a caught exception is returned with. *)
Definition caught_errors (e : exn) : list exn :=
  match e with VariablesCoercionError errs => errs | _ => [e] end.
End Pipeline.

(* ------------------------------------------------------------------ *)
(** ** Traversal of default_validator (validation/validate.py) *)

(** AST nodes: a kind and the child nodes, in document order. *)
Inductive ast_node := ANode (kind : string) (children : list ast_node).

(** What a visitor's [enter] returns. *)
Inductive control := Continue | SkipNode | Stop.

Inductive phase := Enter | Leave.

#[global] Instance phase_eq_dec : EqDecision phase.
Proof. solve_decision. Defined.

(** A callback delivered to visitor number [ev_visitor] at the node
    reached by the child indices [ev_path]. *)
Record event := Ev { ev_phase : phase; ev_visitor : nat; ev_path : list nat }.

#[global] Instance event_eq_dec : EqDecision event.
Proof. solve_decision. Defined.

Section ParallelVisitor.
(** What visitor [i]'s [enter] returns at a node, given the callbacks
    delivered so far (visitors are stateful). *)
Variable enter_ctl : nat -> list nat -> ast_node -> list event -> control.

(** Modelled from the spec: [ParallelVisitor.enter] (lang/visitor.py is
    not among the embedded files).  "each [enter] is delivered to
    [v1 ... vN] in order; if [vi] returns skip-subtree, it is marked
    skipping at this node and receives no callbacks for the subtree; if
    any returns stop, traversal halts."  Returns the callbacks delivered,
    the visitors still active below the node and whether to halt. *)
Fixpoint enter_all (active : list nat) (path : list nat) (n : ast_node)
    (hist : list event) : list event * list nat * bool :=
  match active with
  | [] => ([], [], false)
  | i :: rest =>
      let e := Ev Enter i path in
      match enter_ctl i path n hist with
      | Stop => ([e], [], true)
      | SkipNode =>
          match enter_all rest path n (hist ++ [e]) with
          | (es, act, st) => (e :: es, act, st)
          end
      | Continue =>
          match enter_all rest path n (hist ++ [e]) with
          | (es, act, st) => (e :: es, i :: act, st)
          end
      end
  end.

(** The children of a node, in document order, each visited by
    [visit_one] at its own path; halts as soon as one halts. *)
Fixpoint visit_children
    (visit_one : list nat -> ast_node -> list event -> list event * bool)
    (path : list nat) (k : nat) (cs : list ast_node) (hist : list event)
    : list event * bool :=
  match cs with
  | [] => ([], false)
  | c :: cs' =>
      match visit_one (path ++ [k]) c hist with
      | (e1, true) => (e1, true)
      | (e1, false) =>
          match visit_children visit_one path (S k) cs' (hist ++ e1) with
          | (e2, st) => (e1 ++ e2, st)
          end
      end
  end.

(** Modelled from the spec: depth-first traversal by the visitor of
    lang/visitor.py driving a [ParallelVisitor]; "[leave] is delivered
    in reverse order" to the visitors still active at the node.
    Returns the callbacks delivered and whether traversal halted. *)
Fixpoint visit (active : list nat) (path : list nat) (n : ast_node)
    (hist : list event) {struct n} : list event * bool :=
  match n with
  | ANode _ cs =>
      match enter_all active path n hist with
      | (es, act, true) => (es, true)
      | (es, act, false) =>
          match visit_children (fun p c h => visit act p c h) path 0 cs (hist ++ es) with
          | (ce, true) => (es ++ ce, true)
          | (ce, false) =>
              (es ++ ce ++ map (fun i => Ev Leave i path) (rev act), false)
          end
      end
  end.

(** [ParallelVisitor(type_info, *visitors).visit(document)] as built by
    [default_validator]: visitor [0] is the [TypeInfoVisitor], visitor
    [S k] the [k]-th validation rule of [validators]. *)
Definition default_validator_trace (nrules : nat) (document : ast_node)
    : list event :=
  fst (visit (0 :: map S (seq 0 nrules)) [] document []).
End ParallelVisitor.

(** Concrete inputs used by the checks below. *)
Definition scalar_raising_own_error : ScalarType :=
  {| scalar_name := "Custom";
     _serialize := fun _ => Raise (ScalarSerializationError "cannot serialize");
     _parse := fun _ => Raise (ScalarParsingError "cannot parse") |}.

(** A reading of [isinstance(err, ValueError)] on [py_gql.exc] with just
    the two scalar error classes deriving from [ValueError]. *)
Definition scalar_errors_value_error (e : exn) : bool :=
  match e with
  | ScalarSerializationError _ | ScalarParsingError _ => true
  | _ => false
  end.

Definition color_defs : list enum_def := [DefName "RED"; DefPair "GREEN" (PyInt 2)].
Definition duplicate_defs : list enum_def := [DefName "RED"; DefPair "RED" (PyInt 2)].

Arguments validate_ast {Schema Document Variables} default_validator.
Arguments do_graphql_body {Schema Document Variables Root Context Middleware}.
Arguments do_graphql {Schema Document Variables Root Context Middleware}.

(** A schema whose [validate()] fails, and a parser that rejects its input. *)
Definition invalid_schema_validate (s : unit) : outcome unit :=
  Raise (SchemaError "Query root type must be provided").

Definition parse_ok (source : string) (allow_type_system : bool) : outcome unit :=
  Return tt.

Definition parse_syntax_error (source : string) (allow_type_system : bool)
    : outcome unit :=
  Raise (GraphQLSyntaxError "Unexpected Name").

Definition execute_sync (s d : unit) (operation_name : option string)
    (variables : option unit) (root context : unit) (middlewares : list unit)
    : outcome exec_value :=
  Return (Sync {| gr_data := Some (PyStr "Hello world!"); gr_errors := [] |}).

Definition validator_missing_field (s d : unit) (variables : option unit)
    : outcome (list exn) :=
  Return [ValidationError "Cannot query field missing on type Query"].

Definition validator_none (s d : unit) (variables : option unit)
    : outcome (list exn) :=
  Return [].

(** Modelled from the spec: the [TypeInfoVisitor] (utilities/, not among
    the embedded files) pushes on [enter] and pops on [leave]; its [enter]
    never skips a subtree nor stops the traversal. *)
Definition TypeInfoVisitor_continues
    (enter_ctl : nat -> list nat -> ast_node -> list event -> control) : Prop :=
  forall path n hist, enter_ctl 0 path n hist = Continue.

(** Every [enter] delivered to a rule at a path is preceded by the
    [enter] of visitor [0] at that path ([seen]: the callbacks before). *)
Fixpoint enters_ok (seen : list event) (tr : list event) : Prop :=
  match tr with
  | [] => True
  | e :: tr' =>
      (ev_phase e = Enter -> ev_visitor e <> 0 -> Ev Enter 0 (ev_path e) ∈ seen) /\
      enters_ok (e :: seen) tr'
  end.

(** Every [leave] delivered to a rule at a path is followed by the
    [leave] of visitor [0] at that path. *)
Fixpoint leaves_ok (tr : list event) : Prop :=
  match tr with
  | [] => True
  | e :: tr' =>
      (ev_phase e = Leave -> ev_visitor e <> 0 -> Ev Leave 0 (ev_path e) ∈ tr') /\
      leaves_ok tr'
  end.

(** A document [{ hello { name } }] and visitors where the first rule
    skips every subtree and the others continue. *)
Definition sample_document : ast_node :=
  ANode "Document" [ANode "OperationDefinition"
    [ANode "SelectionSet" [ANode "Field" [ANode "SelectionSet" [ANode "Field" []]]]]].

Definition sample_enter_ctl (i : nat) (path : list nat) (n : ast_node)
    (hist : list event) : control :=
  match i with
  | 1 => if decide (path = [0]) then SkipNode else Continue
  | _ => Continue
  end.

(* ------------------------------------------------------------------ *)
(** ** More of types.py: classification, [get_name], defaults, field maps *)

(** [is_input_type]: [isinstance(unwrap_type(type_), (ScalarType, EnumType, InputObjectType))] *)
Definition is_input_type (t : GraphQLType) : bool :=
  match unwrap_type t with
  | NamedType _ (KScalar | KEnum | KInputObject) _ => true
  | _ => false
  end.

(** [is_output_type]: [isinstance(unwrap_type(type_),
    (ScalarType, EnumType, ObjectType, InterfaceType, UnionType))] *)
Definition is_output_type (t : GraphQLType) : bool :=
  match unwrap_type t with
  | NamedType _ (KScalar | KEnum | KObject | KInterface | KUnion) _ => true
  | _ => false
  end.

(** [is_leaf_type]: [isinstance(type_, (ScalarType, EnumType))], no unwrapping. *)
Definition is_leaf_type (t : GraphQLType) : bool :=
  match t with
  | NamedType _ (KScalar | KEnum) _ => true
  | _ => false
  end.

(** [is_composite_type]: [isinstance(type_, (ObjectType, InterfaceType, UnionType))] *)
Definition is_composite_type (t : GraphQLType) : bool :=
  match t with
  | NamedType _ (KObject | KInterface | KUnion) _ => true
  | _ => false
  end.

(** [is_abstract_type]: [isinstance(type_, (InterfaceType, UnionType))] *)
Definition is_abstract_type (t : GraphQLType) : bool :=
  match t with
  | NamedType _ (KInterface | KUnion) _ => true
  | _ => false
  end.

(** [InputField.default_value], the property getter. *)
Definition InputField_default_value (f : InputField) : outcome pyval :=
  match if_default_value_ f with
  | None => Raise (AttributeError "No default value")
  | Some v => Return v
  end.

(** [repr(value)] of the hashable values used here (strings without
    quotes or backslashes). *)
Definition py_repr (v : pyval) : string :=
  match v with
  | PyNone => "None"
  | PyInt z => pretty.pretty z
  | PyStr s => "'" ++ s ++ "'"
  end.

(** [EnumType.get_name]: [self._reverse_values[value].name], a missing
    key raising [UnknownEnumValue("Invalid value %r for enum %s")]. *)
Definition EnumType_get_name (self : EnumType) (value : pyval) : outcome string :=
  match enum__reverse_values self !! value with
  | Some v => Return (ev_name v)
  | None => Raise (UnknownEnumValue
                     ("Invalid value " ++ py_repr value ++ " for enum " ++ enum_name self))
  end.

(** The object given as a [LazyIter]: [None], a list, a tuple, a dict,
    or any other object with its truth value. *)
Inductive py_seq (A : Type) :=
| SeqNone
| SeqList (xs : list A)
| SeqTuple (xs : list A)
| SeqDict (kvs : list (string * A))
| SeqOther (truthy : bool).
Arguments SeqNone {A}.
Arguments SeqList {A} xs.
Arguments SeqTuple {A} xs.
Arguments SeqDict {A} kvs.
Arguments SeqOther {A} truthy.

(** [not _entries] is [True] for [None], empty containers and falsy objects. *)
Definition py_seq_truthy {A} (s : py_seq A) : bool :=
  match s with
  | SeqNone => false
  | SeqList xs | SeqTuple xs => bool_decide (xs <> [])
  | SeqDict kvs => bool_decide (kvs <> [])
  | SeqOther b => b
  end.

(** [Lazy[T]]: an entry, or a callable returning it. *)
Inductive lazy_entry (A : Type) :=
| LEager (a : A)
| LThunk (f : unit -> A).
Arguments LEager {A} a.
Arguments LThunk {A} f.

Definition lazy_entry_force {A} (e : lazy_entry A) : A :=
  match e with LEager a => a | LThunk f => f tt end.

(** [LazyIter[T] = Lazy[Union[Sequence[Lazy[T]], Sequence[T]]]] *)
Inductive LazyIter (A : Type) :=
| LIEager (s : py_seq (lazy_entry A))
| LIThunk (f : unit -> py_seq (lazy_entry A)).
Arguments LIEager {A} s.
Arguments LIThunk {A} f.

Definition lazy_iter_force {A} (l : LazyIter A) : py_seq (lazy_entry A) :=
  match l with LIEager s => s | LIThunk f => f tt end.

(** [_evaluate_lazy_iter] *)
Definition _evaluate_lazy_iter {A} (entries : LazyIter A) : outcome (list A) :=
  let _entries := lazy_iter_force entries in
  if negb (py_seq_truthy _entries) then Return []
  else match _entries with
       | SeqList xs | SeqTuple xs => Return (map lazy_entry_force xs)
       | _ => Raise (TypeError "Expected list or dict of items")
       end.

(** [{x.name: x for x in xs}]: later entries overwrite earlier ones. *)
Definition dict_by_name {A} (name : A -> string) (xs : list A) : gmap string A :=
  foldl (fun m x => <[name x := x]> m) ∅ xs.

(** [InputObjectType]: the source fields and the [_fields] cache. *)
Record InputObjectType := {
  io_name : string;
  io__source_fields : LazyIter InputField;
  io__fields : option (list InputField)
}.

Definition InputObjectType_init (name : string) (fields : LazyIter InputField)
    : InputObjectType :=
  {| io_name := name; io__source_fields := fields; io__fields := None |}.

(** The [fields] property: evaluates and caches the source on first access. *)
Definition InputObjectType_fields (self : InputObjectType)
    : outcome (list InputField * InputObjectType) :=
  match io__fields self with
  | Some fs => Return (fs, self)
  | None =>
      let! fs := _evaluate_lazy_iter (io__source_fields self) in
      Return (fs, {| io_name := io_name self; io__source_fields := io__source_fields self;
                     io__fields := Some fs |})
  end.

(** The [fields] setter: [self._fields = self._source_fields = fields]. *)
Definition InputObjectType_set_fields (self : InputObjectType) (fields : list InputField)
    : InputObjectType :=
  {| io_name := io_name self; io__source_fields := LIEager (SeqList (map LEager fields));
     io__fields := Some fields |}.

(** The [field_map] property: [{f.name: f for f in self.fields}]. *)
Definition InputObjectType_field_map (self : InputObjectType)
    : outcome (gmap string InputField * InputObjectType) :=
  let! r := InputObjectType_fields self in
  Return (dict_by_name if_name (fst r), snd r).

Section Directives.
(** [DIRECTIVE_LOCATIONS] of lang/parser.py, not among the embedded files. *)
Variable DIRECTIVE_LOCATIONS : list string.

Record Directive := {
  dir_name : string;
  dir_locations : list string;
  dir_arguments : list Argument;
  dir_argument_map : gmap string Argument
}.

(** [Directive.__init__]: [assert locations and all(loc in DIRECTIVE_LOCATIONS
    for loc in locations)]; [arguments] defaults to [[]] and
    [argument_map = {arg.name: arg for arg in self.arguments}]. *)
Definition Directive_init (name : string) (locations : list string)
    (args : option (list Argument)) : outcome Directive :=
  if bool_decide (locations <> []) &&
     forallb (fun loc => bool_decide (loc ∈ DIRECTIVE_LOCATIONS)) locations
  then let arguments := default [] args in
       Return {| dir_name := name; dir_locations := locations;
                 dir_arguments := arguments;
                 dir_argument_map := dict_by_name arg_name arguments |}
  else Raise AssertionError.
End Directives.

Section GraphqlAsync.
Variables (Schema Document Variables Root Context Middleware : Type).
Variable Schema_validate : Schema -> outcome unit.
Variable parse : string -> bool -> outcome Document.
(** The [execute] of [AsyncExecutor]. *)
Variable execute : Schema -> Document -> option string -> option Variables ->
                   Root -> Context -> list Middleware -> outcome exec_value.
Variable default_validator : Validator Schema Document Variables.
(** [await unwrap_coro(value)] (_utils, not among the embedded files). *)
Variable await_unwrap_coro : exec_value -> outcome GraphQLResult.

(** [graphql]: [try: return await unwrap_coro(do_graphql(...,
    executor_cls=AsyncExecutor)) except ExecutionError as err:
    return GraphQLResult(data=None, errors=[err])]. *)
Definition graphql (schema : Schema) (document : string)
    (variables : option Variables) (operation_name : option string)
    (root : Root) (context : Context)
    (validators : option (list (Validator Schema Document Variables)))
    (middlewares : list Middleware) : outcome GraphQLResult :=
  let r :=
    let! v := fst (do_graphql Schema_validate parse execute default_validator schema
                     document variables operation_name root context validators
                     middlewares []) in
    await_unwrap_coro v in
  match r with
  | Raise (ExecutionError m) =>
      Return {| gr_data := None; gr_errors := [ExecutionError m] |}
  | _ => r
  end.
End GraphqlAsync.

Arguments run_validators {Schema Document Variables}.
Arguments graphql {Schema Document Variables Root Context Middleware}.

(** Further concrete inputs used by the checks below. *)

(** Two input fields named [a] and one named [b]. *)
Definition field_a1 : InputField := InputField_init "a" Int None.
Definition field_b : InputField := InputField_init "b" String_ (Some (PyInt 0)).

Definition field_a2 : InputField := InputField_init "a" String_ None.

(** Sources for the check below: a list mixing an eager and a lazy
    entry, and a dict. *)
Definition list_source : LazyIter InputField :=
  LIEager (SeqList [LEager field_a1; LThunk (fun _ => field_b)]).

Definition dict_source : LazyIter InputField :=
  LIThunk (fun _ => SeqDict [("a", LEager field_a1)]).

Definition arg_if : Argument :=
  Argument_init "if" (NonNullType (NamedType 4 KScalar "Boolean")) None.

(** Dict definitions: [{"name": "GREEN", "value": 2,
    "deprecation_reason": "use LIME"}] and
    [{"name": "null", "value": None, "description": "nothing"}]. *)
Definition green_kwargs : enum_kwargs :=
  {| kw_name := Some "GREEN"; kw_value := Some (PyInt 2);
     kw_deprecation_reason := Some (Some "use LIME"); kw_other_keys := [] |}.
Definition green_dict_def : enum_def := DefDict green_kwargs.

Definition null_kwargs : enum_kwargs :=
  {| kw_name := Some "null"; kw_value := Some PyNone;
     kw_deprecation_reason := None; kw_other_keys := ["description"] |}.
Definition null_dict_def : enum_def := DefDict null_kwargs.

(** Two names sharing one value. *)
Definition shared_value_defs : list enum_def :=
  [DefPair "A" (PyInt 1); DefPair "B" (PyInt 1); DefName "C"].

Definition deprecated_red : EnumValue :=
  {| ev_name := "RED"; ev_value := PyInt 0; ev_deprecation_reason := Some "use CRIMSON" |}.

Definition validator_raising (s d : unit) (variables : option unit) : outcome (list exn) :=
  Raise (KeyError).

(** An executor whose result is awaitable, and an await that fails. *)
Definition execute_async (s d : unit) (operation_name : option string)
    (variables : option unit) (root context : unit) (middlewares : list unit)
    : outcome exec_value :=
  Return (Awaitable 0).

Definition await_failing (v : exec_value) : outcome GraphQLResult :=
  match v with
  | Sync r => Return r
  | Awaitable _ => Raise (ExecutionError "Resolver failed")
  end.

(* ================================================================== *)
(** * Properties *)

(** ** Concrete checks *)

Example unwrap_type_doctest :
  unwrap_type (NonNullType (ListType (NonNullType Int))) = Int.
Proof. reflexivity. Qed.

Example eq_list_list :
  GraphQLType_eq (ListType (NonNullType Int)) (ListType (NonNullType Int)) = true.
Proof. reflexivity. Qed.

Example eq_distinct_named :
  GraphQLType_eq Int (NamedType 3 KScalar "Int") = false.
Proof. reflexivity. Qed.

Example nonnull_nonnull_rejected :
  NonNullType_init (Eager (NonNullType Int)) = Raise AssertionError.
Proof. reflexivity. Qed.

(** ** Helper lemmas *)

Lemma GraphQLType_eq_refl (a : GraphQLType) : GraphQLType_eq a a = true.
Proof. destruct a; simpl; unfold py_is; rewrite bool_decide_true; auto. Qed.

Lemma py_is_sym (a b : GraphQLType) : py_is a b = py_is b a.
Proof.
  unfold py_is. apply bool_decide_ext. split; intros ->; reflexivity.
Qed.

Lemma GraphQLType_eq_sym (a b : GraphQLType) :
  GraphQLType_eq a b = GraphQLType_eq b a.
Proof.
  revert b. induction a as [i k n | a IH | a IH]; intros [j k' n' | b | b];
    cbn [GraphQLType_eq is_wrapping same_wrapping_class andb];
    rewrite (py_is_sym _ _); try reflexivity.
  all: rewrite IH; reflexivity.
Qed.

Lemma unwrap_type_wrap_all_named (ws : list wrapper) (i : nat) (k : named_kind)
    (nm : string) :
  unwrap_type (wrap_all ws (NamedType i k nm)) = NamedType i k nm.
Proof. induction ws as [|[] ws IH]; simpl; auto. Qed.

Lemma unwrap_type_named (t : GraphQLType) :
  exists i k nm, unwrap_type t = NamedType i k nm.
Proof. induction t; simpl; eauto. Qed.

(** ** C9 *)

(** Claim C9: wrapping a named type in any finite sequence of [ListType]
    and [NonNullType] constructors and unwrapping gives back the named type;
    hence [unwrap_type] is idempotent and its result is never a [ListType]
    nor a [NonNullType]. *)
Theorem unwrap_type_spec :
  (forall (ws : list wrapper) (i : nat) (k : named_kind) (nm : string),
     unwrap_type (wrap_all ws (NamedType i k nm)) = NamedType i k nm) /\
  (forall t : GraphQLType, unwrap_type (unwrap_type t) = unwrap_type t) /\
  (forall t : GraphQLType, is_wrapping (unwrap_type t) = false).
Proof.
  split; [exact unwrap_type_wrap_all_named|]. split.
  - intros t. destruct (unwrap_type_named t) as (i & k & nm & ->). reflexivity.
  - intros t. destruct (unwrap_type_named t) as (i & k & nm & ->). reflexivity.
Qed.

(** ** C10 *)

(** Claim C10: [GraphQLType.__eq__] is structural on wrapping types
    ([ListType(a) == ListType(b)] iff [a == b], the same for
    [NonNullType]), a [ListType] never equals a [NonNullType], two named
    types are equal iff they are the same instance, and the relation is
    reflexive and symmetric. *)
Theorem GraphQLType_eq_spec :
  (forall a b, GraphQLType_eq (ListType a) (ListType b) = GraphQLType_eq a b) /\
  (forall a b, GraphQLType_eq (NonNullType a) (NonNullType b) = GraphQLType_eq a b) /\
  (forall a b, GraphQLType_eq (ListType a) (NonNullType b) = false /\
               GraphQLType_eq (NonNullType b) (ListType a) = false) /\
  (forall i k n j k' n',
     GraphQLType_eq (NamedType i k n) (NamedType j k' n') = true <->
     NamedType i k n = NamedType j k' n') /\
  (forall a, GraphQLType_eq a a = true) /\
  (forall a b, GraphQLType_eq a b = GraphQLType_eq b a).
Proof.
  split; [|split; [|split; [|split; [|split]]]].
  - intros a b. cbn [GraphQLType_eq is_wrapping same_wrapping_class andb]. unfold py_is.
    destruct (decide (a = b)) as [->|Hne].
    + rewrite bool_decide_true, GraphQLType_eq_refl; auto.
    + rewrite bool_decide_false; [reflexivity|congruence].
  - intros a b. cbn [GraphQLType_eq is_wrapping same_wrapping_class andb]. unfold py_is.
    destruct (decide (a = b)) as [->|Hne].
    + rewrite bool_decide_true, GraphQLType_eq_refl; auto.
    + rewrite bool_decide_false; [reflexivity|congruence].
  - intros a b. cbn [GraphQLType_eq is_wrapping same_wrapping_class andb]. unfold py_is.
    rewrite !bool_decide_false by congruence. auto.
  - intros i k n j k' n'. cbn [GraphQLType_eq is_wrapping same_wrapping_class andb]. unfold py_is.
    rewrite orb_false_r. apply bool_decide_eq_true.
  - exact GraphQLType_eq_refl.
  - exact GraphQLType_eq_sym.
Qed.

(** ** C5 *)

(** Claim C5, counterexample: the constructor's check looks at the
    argument as given, so a lazy reference (a callable) evaluating to a
    [NonNullType] is accepted and a [NonNullType(NonNullType(Int))] is
    constructed: [NonNullType(lambda: NonNullType(Int))]. *)
Lemma NonNullType_lazy_nonnull_accepted :
  NonNullType_init (Thunk (fun _ => NonNullType Int)) =
    Return (NonNullType (NonNullType Int)).
Proof. reflexivity. Qed.

(** Claim C5, as amended: [NonNullType(t)] fails when [t] is given
    directly as a [NonNullType]; a lazy argument is not evaluated by the
    check and is accepted whatever it evaluates to; for every [t] that is
    not a [NonNullType], [NonNullType(ListType(NonNullType(t)))] succeeds,
    and [ListType(ListType(t))] succeeds for every [t]. *)
Theorem NonNullType_init_spec :
  (forall t, NonNullType_init (Eager (NonNullType t)) = Raise AssertionError) /\
  (forall f, NonNullType_init (Thunk f) = Return (NonNullType (f tt))) /\
  (forall t, is_NonNullType t = false ->
     (let! nn := NonNullType_init (Eager t) in
      let! l := ListType_init (Eager nn) in
      NonNullType_init (Eager l)) = Return (NonNullType (ListType (NonNullType t)))) /\
  (forall t,
     (let! l := ListType_init (Eager t) in ListType_init (Eager l)) =
       Return (ListType (ListType t))).
Proof.
  split; [reflexivity|]. split; [reflexivity|]. split; [|reflexivity].
  intros [i k n | t | t] H; try discriminate; reflexivity.
Qed.

Lemma NonNullType_init_spec_witness :
  is_NonNullType Int = false /\
  (let! nn := NonNullType_init (Eager Int) in
   let! l := ListType_init (Eager nn) in
   NonNullType_init (Eager l)) = Return (NonNullType (ListType (NonNullType Int))).
Proof.
  split; [reflexivity|].
  apply (proj1 (proj2 (proj2 NonNullType_init_spec)) Int). reflexivity.
Defined.

(** ** C3 *)

(** On construction, [required] is [NonNull and not has_default_value]. *)
Lemma Argument_required_at_init (name : string) (t : GraphQLType)
    (d : option pyval) :
  Argument_required (Argument_init name t d) =
    is_NonNullType (arg_type (Argument_init name t d)) &&
    negb (arg_has_default_value (Argument_init name t d)).
Proof.
  unfold Argument_required, Argument_init; simpl.
  destruct (is_NonNullType t), d; simpl;
    repeat case_bool_decide; simpl; congruence.
Qed.

(** Claim C3, code bug: the [default_value] deleter resets
    [_default_value] but not [has_default_value].  After
    [a = Argument("a", NonNullType(String), default_value=1)] and
    [del a.default_value], [a.required] is [True] while
    [a.has_default_value] is still [True], so [required] differs from
    [NonNull and not has_default_value]; the same holds for [InputField]. *)
Theorem Argument_required_after_delete :
  let a := Argument_del_default_value
             (Argument_init "a" (NonNullType String_) (Some (PyInt 1))) in
  let f := InputField_del_default_value
             (InputField_init "f" (NonNullType String_) (Some (PyInt 1))) in
  Argument_required a = true /\ arg_has_default_value a = true /\
  Argument_required a <> is_NonNullType (arg_type a) && negb (arg_has_default_value a) /\
  InputField_required f = true /\ if_has_default_value f = true /\
  InputField_required f <> is_NonNullType (if_type f) && negb (if_has_default_value f).
Proof. vm_compute. repeat split; discriminate. Qed.

(** ** C7 *)

(** The [except (ValueError, TypeError)] clause of [serialize] and
    [parse], for an error class [C] that itself derives from [ValueError]. *)
Lemma wrap_error_spec (exc_is_value_error : exn -> bool) (C : string -> exn)
    (HC : forall m, is_value_or_type_error exc_is_value_error (C m) = true)
    (o : outcome pyval) :
  let w := match o with
           | Return r => Return r
           | Raise err => if is_value_or_type_error exc_is_value_error err
                          then Raise (C (exn_str err)) else Raise err
           end in
  (forall r, o = Return r -> w = Return r) /\
  ((exists m, w = Raise (C m)) <->
   (exists err, o = Raise err /\ is_value_or_type_error exc_is_value_error err = true)) /\
  (forall err, o = Raise err -> is_value_or_type_error exc_is_value_error err = true ->
     w = Raise (C (exn_str err))) /\
  (forall err, o = Raise err -> is_value_or_type_error exc_is_value_error err = false ->
     w = Raise err).
Proof.
  intros w. subst w.
  destruct o as [r|err]; (split; [intros ? Ho; inversion Ho; subst; reflexivity|]).
  - split; [split; [intros [m [=]]|intros (err & [=] & _)]|].
    split; intros ? [=].
  - destruct (is_value_or_type_error exc_is_value_error err) eqn:Hv.
    + split; [split; [intros _; eauto|intros _; eauto]|].
      split; intros ? [= <-]; [done|congruence].
    + split; [split; [intros [m [= ->]]; by rewrite HC in Hv|
                      intros (? & [= <-] & H); congruence]|].
      split; intros ? [= <-]; [congruence|done].
Qed.

(** Claim C7: [serialize] returns the user serializer's result when it
    succeeds, and raises [ScalarSerializationError] exactly when the user
    serializer raises a [ValueError] or [TypeError] [err] (subclasses
    included, such as [ScalarSerializationError] and [ScalarParsingError]
    themselves), with the message [str(err)]; any other exception is
    re-raised unchanged.  [parse] behaves the same way with
    [ScalarParsingError]. *)
Theorem ScalarType_serialize_parse_spec (exc_is_value_error : exn -> bool)
    (Hser : forall m, exc_is_value_error (ScalarSerializationError m) = true)
    (Hpar : forall m, exc_is_value_error (ScalarParsingError m) = true)
    (s : ScalarType) (v : pyval) :
  (forall r, _serialize s v = Return r ->
     ScalarType_serialize exc_is_value_error s v = Return r) /\
  ((exists m, ScalarType_serialize exc_is_value_error s v = Raise (ScalarSerializationError m)) <->
   (exists err, _serialize s v = Raise err /\
      is_value_or_type_error exc_is_value_error err = true)) /\
  (forall err, _serialize s v = Raise err -> is_value_or_type_error exc_is_value_error err = true ->
     ScalarType_serialize exc_is_value_error s v = Raise (ScalarSerializationError (exn_str err))) /\
  (forall err, _serialize s v = Raise err -> is_value_or_type_error exc_is_value_error err = false ->
     ScalarType_serialize exc_is_value_error s v = Raise err) /\
  (forall r, _parse s v = Return r -> ScalarType_parse exc_is_value_error s v = Return r) /\
  ((exists m, ScalarType_parse exc_is_value_error s v = Raise (ScalarParsingError m)) <->
   (exists err, _parse s v = Raise err /\
      is_value_or_type_error exc_is_value_error err = true)) /\
  (forall err, _parse s v = Raise err -> is_value_or_type_error exc_is_value_error err = true ->
     ScalarType_parse exc_is_value_error s v = Raise (ScalarParsingError (exn_str err))) /\
  (forall err, _parse s v = Raise err -> is_value_or_type_error exc_is_value_error err = false ->
     ScalarType_parse exc_is_value_error s v = Raise err).
Proof.
  unfold ScalarType_serialize, ScalarType_parse.
  destruct (wrap_error_spec exc_is_value_error ScalarSerializationError Hser (_serialize s v))
    as (Hs1 & Hs2 & Hs3 & Hs4).
  destruct (wrap_error_spec exc_is_value_error ScalarParsingError Hpar (_parse s v))
    as (Hp1 & Hp2 & Hp3 & Hp4).
  auto 10.
Qed.

Lemma ScalarType_serialize_parse_spec_witness :
  _serialize scalar_raising_own_error (PyInt 0) =
    Raise (ScalarSerializationError "cannot serialize") /\
  ScalarType_serialize scalar_errors_value_error scalar_raising_own_error (PyInt 0) =
    Raise (ScalarSerializationError "cannot serialize") /\
  ScalarType_parse scalar_errors_value_error scalar_raising_own_error (PyInt 0) =
    Raise (ScalarParsingError "cannot parse").
Proof.
  split; [reflexivity|]. split.
  - apply (proj1 (proj2 (proj2 (ScalarType_serialize_parse_spec scalar_errors_value_error
                                  (fun _ => eq_refl) (fun _ => eq_refl)
                                  scalar_raising_own_error (PyInt 0))))
           (ScalarSerializationError "cannot serialize")); reflexivity.
  - apply (proj1 (proj2 (proj2 (proj2 (proj2 (proj2 (proj2
             (ScalarType_serialize_parse_spec scalar_errors_value_error
                (fun _ => eq_refl) (fun _ => eq_refl)
                scalar_raising_own_error (PyInt 0))))))))
           (ScalarParsingError "cannot parse")); reflexivity.
Defined.

(** ** C8 *)

Lemma EnumValue_from_def_ok (d : enum_def) (v : EnumValue) :
  EnumValue_from_def d = Return v -> ev_name v = def_name d /\ ev_value v = def_value d.
Proof.
  destruct d as [v'|s|n x|kw|items Hl|s]; simpl; try discriminate.
  - intros [= <-]. auto.
  - unfold EnumValue_init. destruct (decide _); [discriminate|]. intros [= <-]. auto.
  - unfold EnumValue_init. destruct (decide _); [discriminate|]. intros [= <-]. auto.
  - unfold EnumValue_call_kwargs.
    destruct (list_find _ _) as [[? ?]|]; [discriminate|].
    destruct (kw_name kw) as [n|]; simpl; [|discriminate].
    unfold EnumValue_init. destruct (decide _); [discriminate|]. intros [= <-]. auto.
Qed.

(** The loop of [_set_values]: when it finishes, the names collected are
    the declared ones, pairwise distinct, and [_values] maps each
    declared name to an [EnumValue] with the declared value. *)
Lemma set_values_loop_ok (defs : list enum_def) (values : list EnumValue)
    (vmap : gmap string EnumValue) (rmap : gmap pyval EnumValue)
    (vs : list EnumValue) (vm : gmap string EnumValue) (rm : gmap pyval EnumValue) :
  set_values_loop defs values vmap rmap = Return (vs, vm, rm) ->
  (forall k, k ∈ map ev_name values -> is_Some (vmap !! k)) ->
  NoDup (map ev_name values) ->
  NoDup (map ev_name vs) /\
  map ev_name vs = map ev_name values ++ map def_name defs /\
  (forall d, d ∈ defs -> exists v, vm !! def_name d = Some v /\ ev_value v = def_value d) /\
  (forall k, k ∉ map def_name defs -> vm !! k = vmap !! k).
Proof.
  revert values vmap rmap.
  induction defs as [|d defs IH]; intros values vmap rmap Hloop Hinv Hnd.
  - simpl in Hloop. injection Hloop as -> -> ->.
    rewrite app_nil_r. split; [done|]. split; [done|].
    split; [intros d Hd; set_solver|done].
  - simpl in Hloop.
    destruct (EnumValue_from_def d) as [v|e] eqn:Hd; [|discriminate].
    simpl in Hloop. destruct (decide _) as [Hs|Hs]; [discriminate|].
    destruct (EnumValue_from_def_ok d v Hd) as [Hn Hv].
    assert (Hnotin : ev_name v ∉ map ev_name values).
    { intros Hin. apply Hs, Hinv, Hin. }
    destruct (IH _ _ _ Hloop) as (Hnd' & Hmap & Hfound & Hother).
    + intros k Hk. rewrite map_app, elem_of_app in Hk.
      destruct (decide (k = ev_name v)) as [->|Hne].
      * rewrite lookup_insert_eq. eauto.
      * rewrite lookup_insert_ne by congruence.
        destruct Hk as [Hk|Hk]; [by apply Hinv|set_solver].
    + rewrite map_app, list.NoDup_app. split; [done|]. split; [|apply NoDup_singleton].
      intros x Hx. set_solver.
    + pose proof Hnd' as Hall. rewrite Hmap, map_app, <- app_assoc in Hall.
      assert (Hfresh : def_name d ∉ map def_name defs).
      { rewrite list.NoDup_app in Hall. destruct Hall as (_ & _ & Hnd2). simpl in Hnd2.
        rewrite Hn, list.NoDup_cons in Hnd2. by destruct Hnd2. }
      split; [done|].
      split; [rewrite Hmap, map_app, <- app_assoc; simpl; by rewrite Hn|].
      split.
      * intros d' Hd'. apply elem_of_cons in Hd' as [->|Hd'].
        -- exists v. rewrite Hother by done. rewrite <- Hn, lookup_insert_eq. auto.
        -- by apply Hfound.
      * intros k Hk. simpl in Hk. apply not_elem_of_cons in Hk as [Hk1 Hk2].
        rewrite Hother by done. rewrite lookup_insert_ne by congruence. done.
Qed.

(** Claim C8: constructing an [EnumType] whose values contain two entries
    with the same name fails; for every [EnumType] constructed, the value
    names are distinct, [get_value] returns the declared internal value of
    every declared name and raises [UnknownEnumValue] for every other name. *)
Theorem EnumType_init_spec (name : string) (defs : list enum_def) :
  (~ NoDup (map def_name defs) -> is_raise (EnumType_init name defs) = true) /\
  (forall e, EnumType_init name defs = Return e ->
     NoDup (map ev_name (enum_values e)) /\
     (forall d, d ∈ defs -> EnumType_get_value e (def_name d) = Return (def_value d)) /\
     (forall nm, nm ∉ map def_name defs ->
        exists msg, EnumType_get_value e nm = Raise (UnknownEnumValue msg))).
Proof.
  unfold EnumType_init.
  destruct (set_values_loop defs [] ∅ ∅) as [[[vs vm] rm]|err] eqn:Hloop; simpl.
  - destruct (set_values_loop_ok _ _ _ _ _ _ _ Hloop) as (Hnd & Hmap & Hfound & Hother);
      [set_solver|constructor|].
    split.
    + intros Hdup. exfalso. apply Hdup. simpl in Hmap. by rewrite <- Hmap.
    + intros e [= <-]. unfold EnumType_get_value; simpl.
      split; [done|]. split.
      * intros d Hd. destruct (Hfound d Hd) as (v & -> & Hv). by rewrite Hv.
      * intros nm Hnm. rewrite Hother, lookup_empty by done. eauto.
  - split; [done|]. intros e [=].
Qed.

Lemma EnumType_init_spec_witness :
  is_raise (EnumType_init "Dup" duplicate_defs) = true /\
  exists e, EnumType_init "Color" color_defs = Return e /\
    EnumType_get_value e "GREEN" = Return (PyInt 2) /\
    exists msg, EnumType_get_value e "BLUE" = Raise (UnknownEnumValue msg).
Proof.
  split.
  - apply (proj1 (EnumType_init_spec "Dup" duplicate_defs)).
    simpl. rewrite list.NoDup_cons. intros [Hin _]. apply Hin. left.
  - eexists. split; [reflexivity|]. split.
    + apply (proj1 (proj2 (proj2 (EnumType_init_spec "Color" color_defs) _ eq_refl))
               (DefPair "GREEN" (PyInt 2))).
      right. left.
    + apply (proj2 (proj2 (proj2 (EnumType_init_spec "Color" color_defs) _ eq_refl))).
      simpl. intros Hin. apply elem_of_cons in Hin as [Hin|Hin]; [discriminate|].
      apply elem_of_cons in Hin as [Hin|Hin]; [discriminate|].
      apply elem_of_nil in Hin. exact Hin.
Defined.

(** ** C1 and C2: the [try] block of [do_graphql] *)

Lemma do_graphql_handler_caught (e : exn) (log : list step) :
  caught_by_do_graphql e = true ->
  do_graphql_handler e log =
    (Return (Sync {| gr_data := None; gr_errors := caught_errors e |}), log).
Proof. destruct e; simpl; intros H; try discriminate H; reflexivity. Qed.

Lemma do_graphql_handler_uncaught (e : exn) (log : list step) :
  caught_by_do_graphql e = false -> do_graphql_handler e log = (Raise e, log).
Proof. destruct e; simpl; intros H; try discriminate H; reflexivity. Qed.

Section PipelineProperties.
Variables (Schema Document Variables Root Context Middleware : Type).
Variable Schema_validate : Schema -> outcome unit.
Variable parse : string -> bool -> outcome Document.
Variable execute : Schema -> Document -> option string -> option Variables ->
                   Root -> Context -> list Middleware -> outcome exec_value.
Variable default_validator : Validator Schema Document Variables.
Variables (schema : Schema) (document : string) (variables : option Variables)
          (operation_name : option string) (root : Root) (context : Context)
          (validators : option (list (Validator Schema Document Variables)))
          (middlewares : list Middleware).

Local Abbreviation DG :=
  (do_graphql Schema_validate parse execute default_validator schema document
     variables operation_name root context validators middlewares).
Local Abbreviation BODY :=
  (do_graphql_body parse execute default_validator schema document
     variables operation_name root context validators middlewares).

Lemma do_graphql_unfold (log : list step) :
  Schema_validate schema = Return tt ->
  DG log = match BODY (log ++ [StepSchemaValidate]) with
           | (Return a, log') => (Return a, log')
           | (Raise e, log') => do_graphql_handler e log'
           end.
Proof.
  intros H. unfold do_graphql, bind, call, try_except. rewrite H. reflexivity.
Qed.

(** What the [try] block returns: the validation errors, or the value
    [execute] returned. *)
Lemma do_graphql_body_return (log : list step) (x : exec_value) :
  fst (BODY log) = Return x ->
  (exists vr, x = Sync {| gr_data := None; gr_errors := vr_errors vr |}) \/
  (exists ast, execute schema ast operation_name variables root context
                 middlewares = Return x).
Proof.
  unfold do_graphql_body, bind, call, ret.
  destruct (parse document false) as [ast|e]; simpl; [|discriminate].
  destruct (validate_ast default_validator schema ast validators None) as [vr|e];
    simpl; [|discriminate].
  destruct (negb (ValidationResult_bool vr)); simpl.
  - intros [= <-]. left. eauto.
  - intros H. right. eauto.
Qed.

(** Claim C1, as amended: once [schema.validate()] has succeeded,
    [do_graphql] never raises [GraphQLSyntaxError],
    [VariablesCoercionError] or [ExecutionError]: raised in the [try]
    block, each is returned as a [GraphQLResult] with no data and the
    error (for [VariablesCoercionError], its [errors]) as errors; other
    exceptions propagate unchanged; and the value returned is a
    [GraphQLResult] whenever the executor's [execute] returns one. *)
Theorem do_graphql_catches (log : list step) :
  Schema_validate schema = Return tt ->
  (forall e, fst (DG log) = Raise e -> caught_by_do_graphql e = false) /\
  (forall e, fst (BODY (log ++ [StepSchemaValidate])) = Raise e ->
     caught_by_do_graphql e = true ->
     fst (DG log) = Return (Sync {| gr_data := None; gr_errors := caught_errors e |})) /\
  (forall e, fst (BODY (log ++ [StepSchemaValidate])) = Raise e ->
     caught_by_do_graphql e = false -> fst (DG log) = Raise e) /\
  ((forall s d o v r c m x, execute s d o v r c m = Return x -> exists g, x = Sync g) ->
   forall x, fst (DG log) = Return x -> exists g, x = Sync g).
Proof.
  intros Hs. rewrite (do_graphql_unfold log Hs).
  destruct (BODY (log ++ [StepSchemaValidate])) as [[x|e] log'] eqn:Hb; simpl.
  - split; [discriminate|]. split; [discriminate|]. split; [discriminate|].
    intros Hsync x' [= <-].
    assert (Hx : fst (BODY (log ++ [StepSchemaValidate])) = Return x)
      by (rewrite Hb; reflexivity).
    destruct (do_graphql_body_return _ _ Hx) as [[vr ->]|[ast Hex]]; eauto.
  - destruct (caught_by_do_graphql e) eqn:Hc.
    + rewrite (do_graphql_handler_caught e log' Hc); simpl.
      split; [discriminate|]. split; [intros e' [= <-] _; reflexivity|].
      split; [intros e' [= <-]; congruence|].
      intros _ x [= <-]. eauto.
    + rewrite (do_graphql_handler_uncaught e log' Hc); simpl.
      split; [intros e' [= <-]; exact Hc|].
      split; [intros e' [= <-]; congruence|].
      split; [intros e' [= <-] _; reflexivity|].
      intros _ x [=].
Qed.

(** Claim C2: when validation of the parsed document reports at least
    one error, [do_graphql] returns a [GraphQLResult] with no data whose
    errors are exactly the validation errors, and [execute] is never
    invoked. *)
Theorem do_graphql_invalid_document (ast : Document) (vr : ValidationResult) :
  Schema_validate schema = Return tt ->
  parse document false = Return ast ->
  validate_ast default_validator schema ast validators None = Return vr ->
  vr_errors vr <> [] ->
  DG [] = (Return (Sync {| gr_data := None; gr_errors := vr_errors vr |}),
           [StepSchemaValidate; StepParse; StepValidate]) /\
  StepExecute ∉ snd (DG []).
Proof.
  intros Hs Hp Hv Hne.
  assert (Hdg : DG [] = (Return (Sync {| gr_data := None; gr_errors := vr_errors vr |}),
                         [StepSchemaValidate; StepParse; StepValidate])).
  { rewrite (do_graphql_unfold [] Hs).
    unfold do_graphql_body, bind, call, ret. rewrite Hp, Hv.
    unfold ValidationResult_bool. rewrite bool_decide_false by exact Hne.
    reflexivity. }
  split; [exact Hdg|]. rewrite Hdg. simpl.
  intros Hin. repeat (apply elem_of_cons in Hin as [Hin|Hin]; [discriminate|]).
  by apply elem_of_nil in Hin.
Qed.
End PipelineProperties.

(** Claim C1, counterexample: [schema.validate()] is called before the
    [try] block, so a schema that fails validation makes [do_graphql]
    raise instead of returning a [GraphQLResult]. *)
Lemma do_graphql_invalid_schema_raises :
  fst (do_graphql invalid_schema_validate parse_ok execute_sync validator_none
         tt "{ hello }" None None tt tt None [] []) =
    Raise (SchemaError "Query root type must be provided").
Proof. reflexivity. Qed.

Lemma do_graphql_catches_witness :
  fst (do_graphql (fun _ => Return tt) parse_syntax_error execute_sync validator_none
         tt "{ hello" None None tt tt None [] []) =
    Return (Sync {| gr_data := None;
                    gr_errors := [GraphQLSyntaxError "Unexpected Name"] |}).
Proof.
  apply (proj1 (proj2 (do_graphql_catches unit unit unit unit unit unit
    (fun _ => Return tt) parse_syntax_error execute_sync validator_none
    tt "{ hello" None None tt tt None [] [] eq_refl))
         (GraphQLSyntaxError "Unexpected Name")); reflexivity.
Defined.

Lemma do_graphql_invalid_document_witness :
  do_graphql (fun _ => Return tt) parse_ok execute_sync validator_missing_field
    tt "{ missing }" None None tt tt None [] [] =
    (Return (Sync {| gr_data := None;
                     gr_errors := [ValidationError "Cannot query field missing on type Query"] |}),
     [StepSchemaValidate; StepParse; StepValidate]).
Proof.
  apply (do_graphql_invalid_document unit unit unit unit unit unit
    (fun _ => Return tt) parse_ok execute_sync validator_missing_field
    tt "{ missing }" None None tt tt None [] tt
    {| vr_errors := [ValidationError "Cannot query field missing on type Query"] |});
    [reflexivity|reflexivity|reflexivity|discriminate].
Defined.

(** ** C6: the [TypeInfoVisitor] comes first in [default_validator] *)

Lemma ast_node_ind' (P : ast_node -> Prop) :
  (forall k cs, Forall P cs -> P (ANode k cs)) -> forall n, P n.
Proof.
  intros H. fix IH 1. intros [k cs]. apply H.
  induction cs as [|c cs IHcs]; constructor; [apply IH|exact IHcs].
Qed.

Lemma enters_ok_mono (tr seen seen' : list event) :
  (forall x, x ∈ seen -> x ∈ seen') -> enters_ok seen tr -> enters_ok seen' tr.
Proof.
  revert seen seen'. induction tr as [|e tr IH]; intros seen seen' Hsub; simpl; [done|].
  intros [Hh Ht]. split; [eauto|].
  apply (IH (e :: seen)); [|done].
  intros x Hx. apply elem_of_cons in Hx as [->|Hx]; [left|right; auto].
Qed.

Lemma enters_ok_app (seen A B : list event) :
  enters_ok seen A -> enters_ok (rev A ++ seen) B -> enters_ok seen (A ++ B).
Proof.
  revert seen. induction A as [|e A IH]; intros seen; simpl; [done|].
  intros [Hh Ht] HB. split; [done|]. apply IH; [done|].
  rewrite <- app_assoc in HB. exact HB.
Qed.

Lemma leaves_ok_app (A B : list event) :
  leaves_ok A -> leaves_ok B -> leaves_ok (A ++ B).
Proof.
  induction A as [|e A IH]; simpl; [done|].
  intros [Hh Ht] HB. split; [|auto].
  intros H1 H2. rewrite elem_of_app. left. auto.
Qed.

(** The trace property preserved by the traversal. *)
Definition trace_ok (tr : list event) : Prop :=
  (forall seen, enters_ok seen tr) /\ leaves_ok tr.

Lemma trace_ok_nil : trace_ok [].
Proof. split; [intros; exact I|exact I]. Qed.

Lemma trace_ok_app (A B : list event) :
  trace_ok A -> trace_ok B -> trace_ok (A ++ B).
Proof.
  intros [HA1 HA2] [HB1 HB2]. split; [|by apply leaves_ok_app].
  intros seen. apply enters_ok_app; auto.
Qed.

(** An [enter] block at [p] opened by the [enter] of visitor [0]. *)
Lemma trace_ok_enter_block (p : list nat) (es : list event) :
  Forall (fun e => ev_phase e = Enter /\ ev_path e = p) es ->
  trace_ok (Ev Enter 0 p :: es).
Proof.
  intros Hes. split.
  - intros seen. simpl. split; [intros _ []; reflexivity|].
    assert (Hin : Ev Enter 0 p ∈ Ev Enter 0 p :: seen) by left.
    revert Hin. generalize (Ev Enter 0 p :: seen) as s.
    induction Hes as [|e es [Hph Hpa] Hes IH]; intros s Hin; simpl; [done|].
    split; [intros; by rewrite Hpa|]. apply IH. by right.
  - simpl. split; [discriminate|].
    induction Hes as [|e es [Hph Hpa] Hes IH]; simpl; [done|].
    split; [congruence|exact IH].
Qed.

(** A [leave] block at [p] closed by the [leave] of visitor [0]. *)
Lemma trace_ok_leave_block (p : list nat) (act : list nat) :
  trace_ok (map (fun i => Ev Leave i p) act ++ [Ev Leave 0 p]).
Proof.
  split.
  - intros seen. revert seen. induction act as [|i act IH]; intros seen; simpl.
    + split; [discriminate|done].
    + split; [discriminate|apply IH].
  - induction act as [|i act IH]; simpl.
    + split; [intros _ []; reflexivity|done].
    + split; [|exact IH]. intros _ _. rewrite elem_of_app. right. left.
Qed.

Section TypeInfoFirst.
Variable enter_ctl : nat -> list nat -> ast_node -> list event -> control.
Hypothesis type_info_continues : TypeInfoVisitor_continues enter_ctl.

Lemma enter_all_at_path (active : list nat) (p : list nat) (n : ast_node)
    (hist : list event) :
  Forall (fun e => ev_phase e = Enter /\ ev_path e = p)
    (fst (fst (enter_all enter_ctl active p n hist))).
Proof.
  revert hist. induction active as [|i rest IH]; intros hist; simpl; [constructor|].
  destruct (enter_ctl i p n hist).
  - specialize (IH (hist ++ [Ev Enter i p])).
    destruct (enter_all enter_ctl rest p n _) as [[es act] st]; simpl in *.
    constructor; auto.
  - specialize (IH (hist ++ [Ev Enter i p])).
    destruct (enter_all enter_ctl rest p n _) as [[es act] st]; simpl in *.
    constructor; auto.
  - repeat constructor.
Qed.

Lemma visit_children_ok
    (visit_one : list nat -> ast_node -> list event -> list event * bool)
    (p : list nat) (cs : list ast_node) :
  Forall (fun c => forall p' h, trace_ok (fst (visit_one p' c h))) cs ->
  forall k hist, trace_ok (fst (visit_children visit_one p k cs hist)).
Proof.
  induction 1 as [|c cs Hc Hcs IH]; intros k hist; simpl; [apply trace_ok_nil|].
  specialize (Hc (p ++ [k]) hist).
  destruct (visit_one (p ++ [k]) c hist) as [e1 [|]]; simpl in *; [done|].
  specialize (IH (S k) (hist ++ e1)).
  destruct (visit_children visit_one p (S k) cs (hist ++ e1)) as [e2 st].
  simpl in *. by apply trace_ok_app.
Qed.

Lemma visit_ok (n : ast_node) :
  forall rest p hist, trace_ok (fst (visit enter_ctl (0 :: rest) p n hist)).
Proof.
  induction n as [k cs IHcs] using ast_node_ind'. intros rest p hist.
  simpl visit. cbn [enter_all]. rewrite type_info_continues.
  pose proof (enter_all_at_path rest p (ANode k cs) (hist ++ [Ev Enter 0 p])) as Hat.
  destruct (enter_all enter_ctl rest p (ANode k cs) (hist ++ [Ev Enter 0 p]))
    as [[es act] st]; simpl in Hat.
  pose proof (trace_ok_enter_block p es Hat) as Henter.
  destruct st; simpl; [exact Henter|].
  assert (Hch : trace_ok (fst (visit_children
                 (fun p0 c h => visit enter_ctl (0 :: act) p0 c h) p 0 cs
                 (hist ++ Ev Enter 0 p :: es)))).
  { apply visit_children_ok. eapply Forall_impl; [|exact IHcs]. simpl. auto. }
  destruct (visit_children (fun p0 c h => visit enter_ctl (0 :: act) p0 c h) p 0 cs
              (hist ++ Ev Enter 0 p :: es)) as [ce [|]]; simpl in *.
  - by apply (trace_ok_app (Ev Enter 0 p :: es) ce).
  - rewrite map_app. simpl.
    apply (trace_ok_app (Ev Enter 0 p :: es)); [done|].
    apply trace_ok_app; [done|]. apply trace_ok_leave_block.
Qed.
End TypeInfoFirst.

Lemma enters_ok_split (seen pre post : list event) (i : nat) (p : list nat) :
  enters_ok seen (pre ++ Ev Enter i p :: post) -> i <> 0 ->
  Ev Enter 0 p ∈ rev pre ++ seen.
Proof.
  revert seen. induction pre as [|e pre IH]; intros seen; simpl.
  - intros [H _] Hi. exact (H eq_refl Hi).
  - intros [_ H] Hi. rewrite <- app_assoc. exact (IH _ H Hi).
Qed.

Lemma leaves_ok_split (pre post : list event) (i : nat) (p : list nat) :
  leaves_ok (pre ++ Ev Leave i p :: post) -> i <> 0 -> Ev Leave 0 p ∈ post.
Proof.
  induction pre as [|e pre IH]; simpl.
  - intros [H _] Hi. exact (H eq_refl Hi).
  - intros [_ H] Hi. exact (IH H Hi).
Qed.

(** Claim C6: in [default_validator] the [TypeInfoVisitor] is the first
    visitor of the [ParallelVisitor], so at every node the [enter] of every
    rule is preceded by the [TypeInfoVisitor]'s [enter] at that node, and
    the [leave] of every rule is followed by the [TypeInfoVisitor]'s
    [leave] at that node (paths identify nodes). *)
Theorem default_validator_type_info_first
    (enter_ctl : nat -> list nat -> ast_node -> list event -> control)
    (nrules : nat) (document : ast_node) :
  TypeInfoVisitor_continues enter_ctl ->
  (forall pre post i p,
     default_validator_trace enter_ctl nrules document = pre ++ Ev Enter i p :: post ->
     i <> 0 -> Ev Enter 0 p ∈ pre) /\
  (forall pre post i p,
     default_validator_trace enter_ctl nrules document = pre ++ Ev Leave i p :: post ->
     i <> 0 -> Ev Leave 0 p ∈ post).
Proof.
  intros Hti. unfold default_validator_trace.
  destruct (visit_ok enter_ctl Hti document (map S (seq 0 nrules)) [] []) as [He Hl].
  split.
  - intros pre post i p Htr Hi. rewrite Htr in He.
    pose proof (enters_ok_split [] pre post i p (He []) Hi) as H.
    rewrite app_nil_r in H. apply list_elem_of_In in H. apply list_elem_of_In.
    apply in_rev. exact H.
  - intros pre post i p Htr Hi. rewrite Htr in Hl.
    exact (leaves_ok_split pre post i p Hl Hi).
Qed.

Lemma default_validator_type_info_first_witness :
  Ev Enter 0 [0; 0] ∈
    [Ev Enter 0 []; Ev Enter 1 []; Ev Enter 2 [];
     Ev Enter 0 [0]; Ev Enter 1 [0]; Ev Enter 2 [0]; Ev Enter 0 [0; 0]].
Proof.
  apply (proj1 (default_validator_type_info_first sample_enter_ctl 2 sample_document
                  (fun path n hist => eq_refl))
           _ (skipn 8 (default_validator_trace sample_enter_ctl 2 sample_document))
           2 [0; 0]); [vm_compute; reflexivity|discriminate].
Defined.

(* ================================================================== *)
(** * Further properties of the embedded code *)

(** ** Dictionaries built by inserting entries in order *)

Section FoldInsert.
Context {K A : Type} `{Countable K}.
Variable key : A -> K.

Local Abbreviation ins := (fun (m : gmap K A) x => <[key x := x]> m).

Lemma foldl_insert_notin (xs : list A) (m : gmap K A) (k : K) :
  k ∉ map key xs -> foldl ins m xs !! k = m !! k.
Proof.
  revert m. induction xs as [|x xs IH]; intros m Hk; simpl; [done|].
  apply not_elem_of_cons in Hk as [Hk1 Hk2].
  rewrite IH by done. rewrite lookup_insert_ne; congruence.
Qed.

Lemma foldl_insert_last (pre post : list A) (x : A) (m : gmap K A) :
  key x ∉ map key post -> foldl ins m (pre ++ x :: post) !! key x = Some x.
Proof.
  intros Hk. rewrite foldl_app. simpl.
  rewrite foldl_insert_notin by done. apply lookup_insert_eq.
Qed.

Lemma foldl_insert_some (xs : list A) (m : gmap K A) (k : K) (y : A) :
  foldl ins m xs !! k = Some y -> m !! k = Some y \/ (y ∈ xs /\ key y = k).
Proof.
  revert m. induction xs as [|x xs IH]; intros m Hl; simpl in *; [auto|].
  destruct (IH _ Hl) as [Hm|[Hin Hk]].
  - destruct (decide (key x = k)) as [<-|Hne].
    + rewrite lookup_insert_eq in Hm. injection Hm as ->.
      right. split; [apply elem_of_cons; auto|done].
    + rewrite lookup_insert_ne in Hm by done. auto.
  - right. split; [apply elem_of_cons; auto|done].
Qed.
End FoldInsert.

(** [{x.name: x for x in xs}]: a name maps to the last entry carrying
    it; every entry of the dict is an element of [xs] under its own
    name; a name carried by no element is missing. *)
Theorem dict_by_name_lookup {A} (name : A -> string) (xs : list A) :
  (forall pre x post, xs = pre ++ x :: post -> name x ∉ map name post ->
     dict_by_name name xs !! name x = Some x) /\
  (forall k, k ∉ map name xs -> dict_by_name name xs !! k = None) /\
  (forall k y, dict_by_name name xs !! k = Some y -> y ∈ xs /\ name y = k).
Proof.
  unfold dict_by_name. split; [|split].
  - intros pre x post -> Hk. by apply foldl_insert_last.
  - intros k Hk. rewrite foldl_insert_notin by done. apply lookup_empty.
  - intros k y Hl. apply foldl_insert_some in Hl as [Hl|Hl]; [|done].
    by rewrite lookup_empty in Hl.
Qed.

Lemma dict_by_name_lookup_witness :
  [field_a1; field_b; field_a2] = [field_a1; field_b] ++ field_a2 :: [] /\
  (if_name field_a2 ∉ map if_name []) /\
  dict_by_name if_name [field_a1; field_b; field_a2] !! "a" = Some field_a2 /\
  ("c" ∉ map if_name [field_a1; field_b; field_a2]) /\
  dict_by_name if_name [field_a1; field_b; field_a2] !! "c" = None /\
  (dict_by_name if_name [field_a1; field_b; field_a2] !! "b" = Some field_b ->
   field_b ∈ [field_a1; field_b; field_a2] /\ if_name field_b = "b").
Proof.
  split; [reflexivity|]. split; [apply not_elem_of_nil|].
  split; [apply (proj1 (dict_by_name_lookup if_name [field_a1; field_b; field_a2])
                 [field_a1; field_b] field_a2 []);
          [reflexivity|apply not_elem_of_nil]|].
  assert (Hc : "c" ∉ map if_name [field_a1; field_b; field_a2]).
  { simpl. intros Hin. repeat (apply elem_of_cons in Hin as [Hin|Hin]; [discriminate|]).
    by apply elem_of_nil in Hin. }
  split; [exact Hc|]. split.
  - apply (proj1 (proj2 (dict_by_name_lookup if_name [field_a1; field_b; field_a2]))).
    exact Hc.
  - apply (proj2 (proj2 (dict_by_name_lookup if_name [field_a1; field_b; field_a2]))).
Defined.

(** ** [InputObjectType.fields] and [field_map] *)

(** The first access to [field_map] evaluates the lazy source: a falsy
    source ([None], an empty list, tuple or dict) gives no fields; a list
    or tuple gives its entries, each evaluated, in order, and the list is
    cached; a non-empty dict, or any other truthy object, raises
    [TypeError] and nothing is cached. *)
Theorem InputObjectType_field_map_source (name : string) (src : LazyIter InputField) :
  (py_seq_truthy (lazy_iter_force src) = false ->
     InputObjectType_field_map (InputObjectType_init name src) =
       Return (∅, {| io_name := name; io__source_fields := src; io__fields := Some [] |})) /\
  (forall es, lazy_iter_force src = SeqList es \/ lazy_iter_force src = SeqTuple es ->
     InputObjectType_field_map (InputObjectType_init name src) =
       Return (dict_by_name if_name (map lazy_entry_force es),
               {| io_name := name; io__source_fields := src;
                  io__fields := Some (map lazy_entry_force es) |})) /\
  (forall kvs, lazy_iter_force src = SeqDict kvs -> kvs <> [] ->
     InputObjectType_field_map (InputObjectType_init name src) =
       Raise (TypeError "Expected list or dict of items")) /\
  (lazy_iter_force src = SeqOther true ->
     InputObjectType_field_map (InputObjectType_init name src) =
       Raise (TypeError "Expected list or dict of items")).
Proof.
  unfold InputObjectType_field_map, InputObjectType_fields, InputObjectType_init,
    _evaluate_lazy_iter; simpl.
  split; [|split; [|split]].
  - intros Hf. rewrite Hf. reflexivity.
  - intros es [Hs|Hs]; rewrite Hs; simpl; destruct es as [|x es]; try reflexivity;
      rewrite bool_decide_true by done; reflexivity.
  - intros kvs Hs Hne. rewrite Hs. simpl. rewrite bool_decide_true by done. reflexivity.
  - intros Hs. rewrite Hs. reflexivity.
Qed.


Lemma InputObjectType_field_map_source_witness :
  py_seq_truthy (lazy_iter_force (@LIEager InputField SeqNone)) = false /\
  InputObjectType_field_map (InputObjectType_init "In" (LIEager SeqNone)) =
    Return (∅, {| io_name := "In"; io__source_fields := LIEager SeqNone;
                  io__fields := Some [] |}) /\
  InputObjectType_field_map (InputObjectType_init "In" list_source) =
    Return (dict_by_name if_name [field_a1; field_b],
            {| io_name := "In"; io__source_fields := list_source;
               io__fields := Some [field_a1; field_b] |}) /\
  InputObjectType_field_map (InputObjectType_init "In" dict_source) =
    Raise (TypeError "Expected list or dict of items") /\
  InputObjectType_field_map (InputObjectType_init "In" (LIEager (SeqOther true))) =
    Raise (TypeError "Expected list or dict of items").
Proof.
  split; [reflexivity|]. split.
  - apply (proj1 (InputObjectType_field_map_source "In" (LIEager SeqNone))). reflexivity.
  - split; [|split].
    + apply (proj1 (proj2 (InputObjectType_field_map_source "In" list_source))
               [LEager field_a1; LThunk (fun _ => field_b)]).
      left. reflexivity.
    + apply (proj1 (proj2 (proj2 (InputObjectType_field_map_source "In" dict_source)))
               [("a", LEager field_a1)]); [reflexivity|discriminate].
    + apply (proj2 (proj2 (proj2 (InputObjectType_field_map_source "In"
               (LIEager (SeqOther true)))))). reflexivity.
Defined.

(** Once the fields are cached, by a first access or by the [fields]
    setter, [field_map] is built from the cached list, the source is not
    evaluated again and the object is left as it is. *)
Theorem InputObjectType_field_map_cached (o : InputObjectType) (fs : list InputField) :
  (io__fields o = Some fs ->
     InputObjectType_field_map o = Return (dict_by_name if_name fs, o)) /\
  InputObjectType_field_map (InputObjectType_set_fields o fs) =
    Return (dict_by_name if_name fs, InputObjectType_set_fields o fs) /\
  (forall m o', InputObjectType_field_map o = Return (m, o') ->
     InputObjectType_field_map o' = Return (m, o')).
Proof.
  unfold InputObjectType_field_map, InputObjectType_fields.
  split; [|split].
  - intros ->. reflexivity.
  - reflexivity.
  - intros m o'. destruct (io__fields o) as [fs'|] eqn:Hc; simpl.
    + intros [= <- <-]. rewrite Hc. reflexivity.
    + destruct (_evaluate_lazy_iter (io__source_fields o)) as [fs'|e]; simpl;
        [|discriminate].
      intros [= <- <-]. reflexivity.
Qed.

Lemma InputObjectType_field_map_cached_witness :
  InputObjectType_field_map
    {| io_name := "In"; io__source_fields := dict_source; io__fields := Some [field_b] |} =
    Return (dict_by_name if_name [field_b],
            {| io_name := "In"; io__source_fields := dict_source;
               io__fields := Some [field_b] |}).
Proof.
  apply (proj1 (InputObjectType_field_map_cached
    {| io_name := "In"; io__source_fields := dict_source; io__fields := Some [field_b] |}
    [field_b])). reflexivity.
Defined.

(** ** [Directive.__init__] *)

(** Constructing a [Directive] fails with an [AssertionError] when its
    locations are empty or one of them is not a known location; when it
    succeeds, [arguments] is the list given (or [[]]) and [argument_map]
    maps a name to the last argument carrying it. *)
Theorem Directive_init_spec (DIRECTIVE_LOCATIONS : list string) (name : string)
    (locations : list string) (args : option (list Argument)) :
  ((locations = [] \/ exists loc, loc ∈ locations /\ loc ∉ DIRECTIVE_LOCATIONS) ->
     Directive_init DIRECTIVE_LOCATIONS name locations args = Raise AssertionError) /\
  (forall d, Directive_init DIRECTIVE_LOCATIONS name locations args = Return d ->
     locations <> [] /\ Forall (fun loc => loc ∈ DIRECTIVE_LOCATIONS) locations /\
     dir_arguments d = default [] args /\
     (forall pre x post, dir_arguments d = pre ++ x :: post ->
        arg_name x ∉ map arg_name post -> dir_argument_map d !! arg_name x = Some x) /\
     (forall k y, dir_argument_map d !! k = Some y ->
        y ∈ dir_arguments d /\ arg_name y = k)).
Proof.
  unfold Directive_init. split.
  - intros Hbad.
    destruct (bool_decide (locations <> []) &&
              forallb (fun loc => bool_decide (loc ∈ DIRECTIVE_LOCATIONS)) locations)
      eqn:Hc; [|reflexivity].
    apply andb_true_iff in Hc as [Hne Hall].
    apply bool_decide_eq_true in Hne. rewrite forallb_forall in Hall.
    destruct Hbad as [->|(loc & Hin & Hout)]; [done|].
    exfalso. apply Hout. eapply bool_decide_eq_true_1, Hall, list_elem_of_In, Hin.
  - intros d.
    destruct (bool_decide (locations <> []) &&
              forallb (fun loc => bool_decide (loc ∈ DIRECTIVE_LOCATIONS)) locations)
      eqn:Hc; [|discriminate].
    intros [= <-]. simpl.
    apply andb_true_iff in Hc as [Hne Hall].
    apply bool_decide_eq_true in Hne. rewrite forallb_forall in Hall.
    split; [done|]. split.
    + apply Forall_forall. intros loc Hin.
      eapply bool_decide_eq_true_1, Hall, Hin.
    + split; [done|].
      destruct (dict_by_name_lookup arg_name (default [] args)) as (Hlast & _ & Hsome).
      split; [exact Hlast|exact Hsome].
Qed.

Lemma Directive_init_spec_witness :
  Directive_init ["FIELD"; "FRAGMENT_SPREAD"] "skip" [] None = Raise AssertionError /\
  Directive_init ["FIELD"; "FRAGMENT_SPREAD"] "skip" ["QUERY"] None = Raise AssertionError /\
  exists d, Directive_init ["FIELD"; "FRAGMENT_SPREAD"] "skip" ["FIELD"] (Some [arg_if]) =
              Return d /\ dir_argument_map d !! "if" = Some arg_if.
Proof.
  split; [apply (proj1 (Directive_init_spec ["FIELD"; "FRAGMENT_SPREAD"] "skip" [] None));
          left; reflexivity|].
  split.
  - apply (proj1 (Directive_init_spec ["FIELD"; "FRAGMENT_SPREAD"] "skip" ["QUERY"] None)).
    right. exists "QUERY". split; [left|].
    intros Hin. repeat (apply elem_of_cons in Hin as [Hin|Hin]; [discriminate|]).
    by apply elem_of_nil in Hin.
  - eexists. split; [reflexivity|].
    apply (proj1 (proj2 (proj2 (proj2 (proj2 (Directive_init_spec
             ["FIELD"; "FRAGMENT_SPREAD"] "skip" ["FIELD"] (Some [arg_if])) _ eq_refl))))
             [] arg_if []); [reflexivity|apply not_elem_of_nil].
Defined.

(** ** Type classification (types.py, [is_*_type], [nullable_type]) *)

Lemma unwrap_type_wrap_all (ws : list wrapper) (t : GraphQLType) :
  unwrap_type (wrap_all ws t) = unwrap_type t.
Proof. induction ws as [|[] ws IH]; simpl; auto. Qed.

(** [is_input_type] and [is_output_type] see through any wrapping and
    through [nullable_type], which keeps the innermost named type. *)
Theorem input_output_type_wrapping (ws : list wrapper) (t : GraphQLType) :
  is_input_type (wrap_all ws t) = is_input_type t /\
  is_output_type (wrap_all ws t) = is_output_type t /\
  unwrap_type (nullable_type t) = unwrap_type t /\
  is_input_type (nullable_type t) = is_input_type t /\
  is_output_type (nullable_type t) = is_output_type t.
Proof.
  assert (Hn : unwrap_type (nullable_type t) = unwrap_type t) by (destruct t; reflexivity).
  unfold is_input_type, is_output_type. rewrite !unwrap_type_wrap_all, Hn. auto.
Qed.

(** [is_leaf_type], [is_composite_type] and [is_abstract_type] do not
    unwrap: they hold of named types only.  A leaf type is exactly a
    named type that is both an input and an output type; a composite type
    exactly a named output type that is not an input type; an abstract
    type is composite. *)
Theorem type_classification (t : GraphQLType) :
  is_leaf_type t = negb (is_wrapping t) && is_input_type t && is_output_type t /\
  is_composite_type t = negb (is_wrapping t) && is_output_type t && negb (is_input_type t) /\
  (is_abstract_type t = true -> is_composite_type t = true).
Proof.
  destruct t as [i [] n|t|t]; simpl; auto.
Qed.

Lemma type_classification_witness :
  is_abstract_type (NamedType 5 KInterface "Node") = true /\
  is_composite_type (NamedType 5 KInterface "Node") = true /\
  is_leaf_type (NonNullType Int) = false /\ is_input_type (NonNullType Int) = true.
Proof.
  split; [reflexivity|]. split; [apply (type_classification (NamedType 5 KInterface "Node")); reflexivity|].
  split; reflexivity.
Defined.

(** ** The [default_value] property of [Argument] and [InputField] *)

(** Setting a default value makes it readable and the argument or field
    not required; deleting it makes the getter raise [AttributeError]
    and the argument or field required exactly when its type is a
    [NonNullType]; right after construction the getter returns the
    value given, and raises when none was given. *)
Theorem default_value_roundtrip (a : Argument) (f : InputField) (v : pyval)
    (name : string) (t : GraphQLType) (d : option pyval) :
  Argument_default_value (Argument_set_default_value a v) = Return v /\
  Argument_required (Argument_set_default_value a v) = false /\
  Argument_default_value (Argument_del_default_value a) =
    Raise (AttributeError "No default value") /\
  Argument_required (Argument_del_default_value a) = is_NonNullType (arg_type a) /\
  Argument_default_value (Argument_init name t d) =
    match d with Some v' => Return v' | None => Raise (AttributeError "No default value") end /\
  InputField_default_value (InputField_set_default_value f v) = Return v /\
  InputField_required (InputField_set_default_value f v) = false /\
  InputField_default_value (InputField_del_default_value f) =
    Raise (AttributeError "No default value") /\
  InputField_required (InputField_del_default_value f) = is_NonNullType (if_type f) /\
  InputField_default_value (InputField_init name t d) =
    match d with Some v' => Return v' | None => Raise (AttributeError "No default value") end.
Proof.
  unfold Argument_required, InputField_required; simpl.
  repeat split; destruct d; try reflexivity;
    repeat (case_bool_decide; try congruence); rewrite ?andb_true_r, ?andb_false_r;
    reflexivity.
Qed.

(** ** [EnumType]: [get_name], declaration order, reserved names *)

(** The loop of [_set_values], when it finishes, has built both maps by
    inserting, in order, the values made by [from_def]. *)
Lemma set_values_loop_fold (defs : list enum_def) (values : list EnumValue)
    (vmap : gmap string EnumValue) (rmap : gmap pyval EnumValue)
    (vs : list EnumValue) (vm : gmap string EnumValue) (rm : gmap pyval EnumValue) :
  set_values_loop defs values vmap rmap = Return (vs, vm, rm) ->
  exists evs, vs = values ++ evs /\
    vm = foldl (fun m v => <[ev_name v := v]> m) vmap evs /\
    rm = foldl (fun m v => <[ev_value v := v]> m) rmap evs /\
    Forall2 (fun d v => EnumValue_from_def d = Return v) defs evs.
Proof.
  revert values vmap rmap.
  induction defs as [|d defs IH]; intros values vmap rmap Hloop; simpl in Hloop.
  - injection Hloop as -> -> ->. exists []. rewrite app_nil_r. auto.
  - destruct (EnumValue_from_def d) as [v|e] eqn:Hd; [|discriminate]. simpl in Hloop.
    destruct (decide _); [discriminate|].
    destruct (IH _ _ _ Hloop) as (evs & -> & -> & -> & Hf).
    exists (v :: evs). rewrite <- app_assoc. simpl. auto.
Qed.

Lemma from_defs_names_values (ds : list enum_def) (evs : list EnumValue) :
  Forall2 (fun d v => EnumValue_from_def d = Return v) ds evs ->
  map ev_name evs = map def_name ds /\ map ev_value evs = map def_value ds.
Proof.
  induction 1 as [|d v ds evs Hd _ [IHn IHv]]; simpl; [done|].
  destruct (EnumValue_from_def_ok d v Hd) as [-> ->]. by rewrite IHn, IHv.
Qed.

(** The values of a constructed [EnumType]. *)
Lemma EnumType_init_fold (name : string) (defs : list enum_def) (e : EnumType) :
  EnumType_init name defs = Return e ->
  exists evs, enum_values e = evs /\
    enum__values e = foldl (fun m v => <[ev_name v := v]> m) ∅ evs /\
    enum__reverse_values e = foldl (fun m v => <[ev_value v := v]> m) ∅ evs /\
    Forall2 (fun d v => EnumValue_from_def d = Return v) defs evs /\
    NoDup (map ev_name evs).
Proof.
  unfold EnumType_init.
  destruct (set_values_loop defs [] ∅ ∅) as [[[vs vm] rm]|err] eqn:Hloop; simpl;
    [|discriminate].
  intros [= <-]. simpl.
  destruct (set_values_loop_ok _ _ _ _ _ _ _ Hloop) as (Hnd & _);
    [set_solver|constructor|].
  destruct (set_values_loop_fold _ _ _ _ _ _ _ Hloop) as (evs & -> & -> & -> & Hf).
  exists evs. simpl in *. auto.
Qed.

(** [get_name] and [get_value] are inverse on what [get_name] accepts:
    every name it returns maps back to the value.  [get_name] returns the
    name of the last declared value equal to the one asked for (so each
    declared name when the declared values are distinct), and raises
    [UnknownEnumValue] for a value that was not declared. *)
Theorem EnumType_get_name_spec (name : string) (defs : list enum_def) (e : EnumType) :
  EnumType_init name defs = Return e ->
  (forall v n, EnumType_get_name e v = Return n -> EnumType_get_value e n = Return v) /\
  (forall pre d post, defs = pre ++ d :: post -> def_value d ∉ map def_value post ->
     EnumType_get_name e (def_value d) = Return (def_name d)) /\
  (NoDup (map def_value defs) ->
     forall d, d ∈ defs -> EnumType_get_name e (def_value d) = Return (def_name d)) /\
  (forall v, v ∉ map def_value defs ->
     exists msg, EnumType_get_name e v = Raise (UnknownEnumValue msg)).
Proof.
  intros He.
  destruct (EnumType_init_fold _ _ _ He) as (evs & Hvs & Hvm & Hrm & Hf & Hnd).
  destruct (from_defs_names_values _ _ Hf) as [Hnames Hvalues].
  unfold EnumType_get_name, EnumType_get_value. rewrite Hvm, Hrm.
  assert (Hlast : forall pre d post, defs = pre ++ d :: post ->
            def_value d ∉ map def_value post ->
            match foldl (fun (m : gmap pyval EnumValue) v => <[ev_value v := v]> m) ∅ evs
                    !! def_value d with
            | Some v => Return (ev_name v)
            | None => Raise (UnknownEnumValue ("Invalid value " ++ py_repr (def_value d) ++
                                                 " for enum " ++ enum_name e))
            end = Return (def_name d)).
  { intros pre d post -> Hnot.
    apply Forall2_app_inv_l in Hf as (k1 & k2 & _ & Hpost & ->).
    apply Forall2_cons_inv_l in Hpost as (ev & epost & Hd & Hep & ->).
    destruct (EnumValue_from_def_ok _ _ Hd) as [Hn Hv].
    destruct (from_defs_names_values _ _ Hep) as [_ Hev].
    rewrite <- Hv, (foldl_insert_last ev_value); [by rewrite Hn|].
    rewrite Hev, Hv. exact Hnot. }
  split; [|split; [exact Hlast|split]].
  - intros v n.
    destruct (foldl (fun (m : gmap pyval EnumValue) v => <[ev_value v := v]> m) ∅ evs !! v)
      as [ev|] eqn:Hl;
      [|discriminate].
    intros [= <-].
    apply foldl_insert_some in Hl as [Hl|[Hin Hk]]; [by rewrite lookup_empty in Hl|].
    apply list_elem_of_split in Hin as (epre & epost & ->).
    rewrite (foldl_insert_last ev_name); [by rewrite Hk|].
    rewrite map_app, list.NoDup_app in Hnd. destruct Hnd as (_ & _ & Hnd2).
    simpl in Hnd2. rewrite list.NoDup_cons in Hnd2. by destruct Hnd2.
  - intros Hndv d Hd.
    apply list_elem_of_split in Hd as (pre & post & Hsplit).
    apply (Hlast pre d post Hsplit).
    rewrite Hsplit, map_app, list.NoDup_app in Hndv. destruct Hndv as (_ & _ & Hnd2).
    simpl in Hnd2. rewrite list.NoDup_cons in Hnd2. by destruct Hnd2.
  - intros v Hv. rewrite (foldl_insert_notin ev_value), lookup_empty; [eauto|].
    by rewrite Hvalues.
Qed.


Lemma EnumType_get_name_spec_witness :
  exists e, EnumType_init "Letters" shared_value_defs = Return e /\
    EnumType_get_name e (PyInt 1) = Return "B" /\
    EnumType_get_value e "B" = Return (PyInt 1) /\
    exists msg, EnumType_get_name e (PyInt 2) = Raise (UnknownEnumValue msg).
Proof.
  pose proof (EnumType_get_name_spec "Letters" shared_value_defs) as Hspec.
  destruct (EnumType_init "Letters" shared_value_defs) as [e|err] eqn:He.
  2: { exfalso. vm_compute in He. discriminate He. }
  exists e. split; [reflexivity|].
  destruct (Hspec e eq_refl) as (Hinv & Hlast & _ & Hunknown).
  assert (HB : EnumType_get_name e (PyInt 1) = Return "B").
  { apply (Hlast [DefPair "A" (PyInt 1)] (DefPair "B" (PyInt 1)) [DefName "C"]);
      [reflexivity|].
    simpl. intros Hin. apply elem_of_cons in Hin as [Hin|Hin]; [discriminate|].
    by apply elem_of_nil in Hin. }
  split; [exact HB|]. split; [exact (Hinv _ _ HB)|].
  apply Hunknown. simpl. intros Hin.
  repeat (apply elem_of_cons in Hin as [Hin|Hin]; [discriminate|]).
  by apply elem_of_nil in Hin.
Defined.

(** [values] lists one [EnumValue] per definition, in declaration
    order, with the declared names and values; an [EnumValue] given as
    such is kept as it is, one made of a dict has the dict's deprecation
    reason (if any), the others have none. *)
Theorem EnumType_init_values (name : string) (defs : list enum_def) (e : EnumType) :
  EnumType_init name defs = Return e ->
  map ev_name (enum_values e) = map def_name defs /\
  map ev_value (enum_values e) = map def_value defs /\
  Forall2 (fun d v => match d with
                      | DefEnumValue v' => v = v'
                      | DefDict kw => ev_deprecation_reason v = default None (kw_deprecation_reason kw)
                      | _ => ev_deprecation_reason v = None
                      end) defs (enum_values e).
Proof.
  intros He.
  destruct (EnumType_init_fold _ _ _ He) as (evs & -> & _ & _ & Hf & _).
  destruct (from_defs_names_values _ _ Hf) as [Hn Hv].
  split; [done|]. split; [done|].
  eapply Forall2_impl; [|exact Hf]. intros d v.
  destruct d as [v'|s|n x|kw|items Hl|s]; simpl; try discriminate.
  - intros [= <-]. reflexivity.
  - unfold EnumValue_init. destruct (decide _); [discriminate|]. intros [= <-]. reflexivity.
  - unfold EnumValue_init. destruct (decide _); [discriminate|]. intros [= <-]. reflexivity.
  - unfold EnumValue_call_kwargs.
    destruct (list_find _ _) as [[? ?]|]; [discriminate|].
    destruct (kw_name kw) as [n|]; simpl; [|discriminate].
    unfold EnumValue_init. destruct (decide _); [discriminate|]. intros [= <-]. reflexivity.
Qed.


Lemma EnumType_init_values_witness :
  exists e, EnumType_init "Color" [DefEnumValue deprecated_red; DefName "BLUE"; green_dict_def]
              = Return e /\
    map ev_name (enum_values e) = ["RED"; "BLUE"; "GREEN"] /\
    map ev_value (enum_values e) = [PyInt 0; PyStr "BLUE"; PyInt 2].
Proof.
  pose proof (EnumType_init_values "Color"
                [DefEnumValue deprecated_red; DefName "BLUE"; green_dict_def]) as Hspec.
  destruct (EnumType_init "Color" [DefEnumValue deprecated_red; DefName "BLUE"; green_dict_def])
    as [e|err] eqn:He.
  2: { exfalso. vm_compute in He. discriminate He. }
  exists e. split; [reflexivity|].
  destruct (Hspec e eq_refl) as (Hn & Hv & _). split; [exact Hn|exact Hv].
Defined.

(** The loop of [_set_values] stops with an [AssertionError] at a
    definition [from_def] fails on with one, once the definitions before
    it are accepted: each of them is either stored or a duplicate, which
    also fails the assertion. *)
Lemma set_values_loop_prefix_assert (pre post : list enum_def) (d : enum_def)
    (values : list EnumValue) (vmap : gmap string EnumValue) (rmap : gmap pyval EnumValue) :
  (forall d', d' ∈ pre -> is_raise (EnumValue_from_def d') = false) ->
  EnumValue_from_def d = Raise AssertionError ->
  set_values_loop (pre ++ d :: post) values vmap rmap = Raise AssertionError.
Proof.
  intros Hpre Hd. revert values vmap rmap.
  induction pre as [|d' pre IH]; intros values vmap rmap; simpl.
  - by rewrite Hd.
  - destruct (EnumValue_from_def d') as [v|err] eqn:Hd'.
    + simpl. destruct (decide _); [reflexivity|].
      apply IH. intros d'' Hin. apply Hpre. by right.
    + exfalso. specialize (Hpre d' ltac:(left)). by rewrite Hd' in Hpre.
Qed.

(** A string, [(name, value)] tuple or dict definition (the dict with
    only parameters of [EnumValue.__init__] as keys) named ["true"],
    ["false"] or ["null"] makes the [EnumType] constructor fail with an
    [AssertionError], whatever follows it, once [from_def] accepts every
    definition before it. *)
Theorem EnumType_init_reserved (name : string) (pre post : list enum_def)
    (d : enum_def) (n : string) :
  (forall d', d' ∈ pre -> is_raise (EnumValue_from_def d') = false) ->
  (d = DefName n \/ (exists v, d = DefPair n v) \/
   (exists kw, d = DefDict kw /\ kw_name kw = Some n /\
      forall k, k ∈ kw_other_keys kw -> k ∈ ["description"; "node"])) ->
  n ∈ ["true"; "false"; "null"] ->
  EnumType_init name (pre ++ d :: post) = Raise AssertionError.
Proof.
  intros Hpre Hd Hres.
  unfold EnumType_init. rewrite (set_values_loop_prefix_assert pre post d); [reflexivity|done|].
  destruct Hd as [->|[[v ->]|(kw & -> & Hn & Hkeys)]]; simpl;
    [unfold EnumValue_init; by rewrite decide_True ..|].
  unfold EnumValue_call_kwargs.
  replace (list_find _ _) with (@None (nat * string)).
  - rewrite Hn. unfold EnumValue_init. by rewrite decide_True.
  - symmetry. apply list_find_None. apply Forall_forall.
    intros k Hk Hnot. apply Hnot, Hkeys. by apply list_elem_of_In.
Qed.

Lemma EnumType_init_reserved_witness :
  EnumType_init "Bool" ([DefName "yes"] ++ null_dict_def :: [DefOther "5"]) =
    Raise AssertionError.
Proof.
  apply (EnumType_init_reserved "Bool" [DefName "yes"] [DefOther "5"] null_dict_def "null").
  - intros d' Hin. apply elem_of_cons in Hin as [->|Hin]; [reflexivity|].
    by apply elem_of_nil in Hin.
  - right. right. exists null_kwargs. split; [reflexivity|].
    split; [reflexivity|]. intros k Hk.
    apply elem_of_cons in Hk as [->|Hk]; [left|by apply elem_of_nil in Hk].
  - right. right. left.
Defined.

(** ** [validate_ast] *)

Lemma concat_nil_Forall (ess : list (list exn)) :
  concat ess = [] <-> Forall (fun es => es = []) ess.
Proof.
  induction ess as [|es ess IH]; simpl.
  - split; auto.
  - split.
    + intros H. apply app_eq_nil in H as [-> H]. constructor; [done|by apply IH].
    + intros Hf. inversion Hf as [|? ? Hes Hrest]; subst. simpl. by apply IH.
Qed.

Section ValidateAst.
Variables (Schema Document Variables : Type).
Variable default_validator : Validator Schema Document Variables.
Variables (schema : Schema) (document : Document) (variables : option Variables).

(** The errors of [validate_ast] are those of the validators, validator
    by validator in the order given, each validator's in its own order;
    the result is truthy exactly when no validator reported an error. *)
Theorem validate_ast_errors (vs : list (Validator Schema Document Variables))
    (ess : list (list exn)) :
  Forall2 (fun v es => v schema document variables = Return es) vs ess ->
  exists vr, validate_ast default_validator schema document (Some vs) variables = Return vr /\
    vr_errors vr = concat ess /\
    (ValidationResult_bool vr = true <-> Forall (fun es => es = []) ess).
Proof.
  intros Hf. exists {| vr_errors := concat ess |}.
  split; [|split; [reflexivity|]].
  - unfold validate_ast. simpl.
    assert (Hrun : run_validators vs schema document variables = Return (concat ess)).
    { induction Hf as [|v es vs ess Hv _ IH]; simpl; [reflexivity|].
      rewrite Hv. simpl. rewrite IH. reflexivity. }
    rewrite Hrun. reflexivity.
  - unfold ValidationResult_bool. simpl. split; intros H.
    + apply concat_nil_Forall. exact (bool_decide_eq_true_1 _ H).
    + apply bool_decide_eq_true_2, concat_nil_Forall, H.
Qed.

(** An exception raised by a validator propagates out of [validate_ast],
    the validators after it being skipped. *)
Theorem validate_ast_raise (pre : list (Validator Schema Document Variables))
    (v : Validator Schema Document Variables)
    (post : list (Validator Schema Document Variables)) (ess : list (list exn)) (e : exn) :
  Forall2 (fun v es => v schema document variables = Return es) pre ess ->
  v schema document variables = Raise e ->
  validate_ast default_validator schema document (Some (pre ++ v :: post)) variables =
    Raise e.
Proof.
  intros Hf Hv. unfold validate_ast. simpl.
  assert (Hrun : run_validators (pre ++ v :: post) schema document variables = Raise e).
  { induction Hf as [|v' es vs ess Hv' _ IH]; simpl.
    - rewrite Hv. reflexivity.
    - rewrite Hv'. simpl. rewrite IH. reflexivity. }
  rewrite Hrun. reflexivity.
Qed.
End ValidateAst.


Lemma validate_ast_errors_witness :
  exists vr, validate_ast validator_none tt tt
               (Some [validator_missing_field; validator_none; validator_missing_field]) None =
             Return vr /\
    vr_errors vr = [ValidationError "Cannot query field missing on type Query";
                    ValidationError "Cannot query field missing on type Query"] /\
    ValidationResult_bool vr = false.
Proof.
  destruct (validate_ast_errors unit unit unit validator_none tt tt None
              [validator_missing_field; validator_none; validator_missing_field]
              [[ValidationError "Cannot query field missing on type Query"]; [];
               [ValidationError "Cannot query field missing on type Query"]])
    as (vr & Hvr & Herr & Hbool).
  - repeat constructor.
  - exists vr. split; [exact Hvr|]. split; [exact Herr|].
    destruct (ValidationResult_bool vr) eqn:Hb; [|reflexivity].
    destruct Hbool as [Hf _]. specialize (Hf eq_refl). inversion Hf. discriminate.
Defined.

Lemma validate_ast_raise_witness :
  validate_ast validator_none tt tt
    (Some [validator_missing_field; validator_raising; validator_none]) None = Raise KeyError.
Proof.
  apply (validate_ast_raise unit unit unit validator_none tt tt None
           [validator_missing_field] validator_raising [validator_none]
           [[ValidationError "Cannot query field missing on type Query"]] KeyError).
  - repeat constructor.
  - reflexivity.
Defined.

(** ** [do_graphql]: what runs, in which order *)

Section PipelineSteps.
Variables (Schema Document Variables Root Context Middleware : Type).
Variable Schema_validate : Schema -> outcome unit.
Variable parse : string -> bool -> outcome Document.
Variable execute : Schema -> Document -> option string -> option Variables ->
                   Root -> Context -> list Middleware -> outcome exec_value.
Variable default_validator : Validator Schema Document Variables.
Variables (schema : Schema) (document : string) (variables : option Variables)
          (operation_name : option string) (root : Root) (context : Context)
          (validators : option (list (Validator Schema Document Variables)))
          (middlewares : list Middleware).

Local Abbreviation DG :=
  (do_graphql Schema_validate parse execute default_validator schema document
     variables operation_name root context validators middlewares).

(** What the [except] clauses turn an exception into. *)
Local Abbreviation HANDLED e :=
  (if caught_by_do_graphql e
   then Return (Sync {| gr_data := None; gr_errors := caught_errors e |})
   else Raise e).

Lemma do_graphql_handler_handled (e : exn) (log : list step) :
  do_graphql_handler e log = (HANDLED e, log).
Proof. destruct e; reflexivity. Qed.

(** An exception raised by [schema.validate()] propagates unchanged,
    whatever its class, and nothing else runs. *)
Theorem do_graphql_schema_error (log : list step) (e : exn) :
  Schema_validate schema = Raise e ->
  DG log = (Raise e, log ++ [StepSchemaValidate]).
Proof. intros H. unfold do_graphql, bind, call. rewrite H. reflexivity. Qed.

(** An exception raised while parsing, or while validating, goes to the
    [except] clauses, and the later steps never run: after a parse error
    neither validation nor execution, after a validation exception no
    execution. *)
Theorem do_graphql_early_error (e : exn) (steps : list step) :
  Schema_validate schema = Return tt ->
  (parse document false = Raise e /\ steps = [StepSchemaValidate; StepParse]) \/
  (exists ast, parse document false = Return ast /\
     validate_ast default_validator schema ast validators None = Raise e /\
     steps = [StepSchemaValidate; StepParse; StepValidate]) ->
  DG [] = (HANDLED e, steps).
Proof.
  intros Hs Hcase. unfold do_graphql, do_graphql_body, bind, call, try_except.
  rewrite Hs. simpl.
  destruct Hcase as [[Hp ->]|(ast & Hp & Hv & ->)]; rewrite Hp; simpl.
  - apply do_graphql_handler_handled.
  - rewrite Hv. apply do_graphql_handler_handled.
Qed.

(** When the document parses and validates without error, [execute] is
    the last step and what it returns is returned as it is; what it
    raises goes to the [except] clauses.  Validation is run with no
    variables. *)
Theorem do_graphql_valid_document (ast : Document) (vr : ValidationResult) :
  Schema_validate schema = Return tt ->
  parse document false = Return ast ->
  validate_ast default_validator schema ast validators None = Return vr ->
  vr_errors vr = [] ->
  DG [] = (match execute schema ast operation_name variables root context middlewares with
           | Return x => Return x
           | Raise e => HANDLED e
           end,
           [StepSchemaValidate; StepParse; StepValidate; StepExecute]).
Proof.
  intros Hs Hp Hv Hnil. unfold do_graphql, do_graphql_body, bind, call, try_except.
  rewrite Hs. simpl. rewrite Hp. simpl. rewrite Hv. simpl.
  unfold ValidationResult_bool. rewrite Hnil, bool_decide_true by done. simpl.
  destruct (execute schema ast operation_name variables root context middlewares)
    as [x|e]; [reflexivity|].
  apply do_graphql_handler_handled.
Qed.
End PipelineSteps.

Section GraphqlProperties.
Variables (Schema Document Variables Root Context Middleware : Type).
Variable Schema_validate : Schema -> outcome unit.
Variable parse : string -> bool -> outcome Document.
Variable execute : Schema -> Document -> option string -> option Variables ->
                   Root -> Context -> list Middleware -> outcome exec_value.
Variable default_validator : Validator Schema Document Variables.
Variable await_unwrap_coro : exec_value -> outcome GraphQLResult.
Variables (schema : Schema) (document : string) (variables : option Variables)
          (operation_name : option string) (root : Root) (context : Context)
          (validators : option (list (Validator Schema Document Variables)))
          (middlewares : list Middleware).

(** [graphql] never raises [ExecutionError], whichever step raises it
    (including [schema.validate()] and the awaited execution); such an
    error is returned as a result with no data.  Otherwise it returns, or
    raises, what awaiting the result of [do_graphql] does: any other
    exception, raised by [do_graphql] or by the await, is re-raised. *)
Theorem graphql_no_execution_error :
  (forall e,
     graphql Schema_validate parse execute default_validator await_unwrap_coro schema
       document variables operation_name root context validators middlewares = Raise e ->
     forall m, e <> ExecutionError m) /\
  (forall m,
     fst (do_graphql Schema_validate parse execute default_validator schema document
            variables operation_name root context validators middlewares []) =
       Raise (ExecutionError m) ->
     graphql Schema_validate parse execute default_validator await_unwrap_coro schema
       document variables operation_name root context validators middlewares =
       Return {| gr_data := None; gr_errors := [ExecutionError m] |}) /\
  (forall v m,
     fst (do_graphql Schema_validate parse execute default_validator schema document
            variables operation_name root context validators middlewares []) = Return v ->
     await_unwrap_coro v = Raise (ExecutionError m) ->
     graphql Schema_validate parse execute default_validator await_unwrap_coro schema
       document variables operation_name root context validators middlewares =
       Return {| gr_data := None; gr_errors := [ExecutionError m] |}) /\
  (forall v r,
     fst (do_graphql Schema_validate parse execute default_validator schema document
            variables operation_name root context validators middlewares []) = Return v ->
     await_unwrap_coro v = Return r ->
     graphql Schema_validate parse execute default_validator await_unwrap_coro schema
       document variables operation_name root context validators middlewares = Return r) /\
  (forall e, (forall m, e <> ExecutionError m) ->
     fst (do_graphql Schema_validate parse execute default_validator schema document
            variables operation_name root context validators middlewares []) = Raise e ->
     graphql Schema_validate parse execute default_validator await_unwrap_coro schema
       document variables operation_name root context validators middlewares = Raise e) /\
  (forall v e, (forall m, e <> ExecutionError m) ->
     fst (do_graphql Schema_validate parse execute default_validator schema document
            variables operation_name root context validators middlewares []) = Return v ->
     await_unwrap_coro v = Raise e ->
     graphql Schema_validate parse execute default_validator await_unwrap_coro schema
       document variables operation_name root context validators middlewares = Raise e).
Proof.
  unfold graphql.
  split; [|split; [|split; [|split; [|split]]]].
  - intros e. destruct (let! v := fst (do_graphql Schema_validate parse execute default_validator
                                       schema document variables operation_name root
                                       context validators middlewares []) in
               await_unwrap_coro v) as [r|[]];
      intros H m; try discriminate H; injection H as <-; discriminate.
  - intros m H. rewrite H. reflexivity.
  - intros v m H Ha. rewrite H. simpl. rewrite Ha. reflexivity.
  - intros v r H Ha. rewrite H. simpl. rewrite Ha. reflexivity.
  - intros e Hne H. rewrite H. simpl.
    destruct e; try reflexivity. exfalso. exact (Hne msg eq_refl).
  - intros v e Hne H Ha. rewrite H. simpl. rewrite Ha.
    destruct e; try reflexivity. exfalso. exact (Hne msg eq_refl).
Qed.
End GraphqlProperties.

Lemma do_graphql_schema_error_witness :
  do_graphql invalid_schema_validate parse_ok execute_sync validator_none
    tt "{ hello }" None None tt tt None [] [] =
    (Raise (SchemaError "Query root type must be provided"), [StepSchemaValidate]).
Proof.
  apply (do_graphql_schema_error unit unit unit unit unit unit
           invalid_schema_validate parse_ok execute_sync validator_none
           tt "{ hello }" None None tt tt None [] []
           (SchemaError "Query root type must be provided")).
  reflexivity.
Defined.

Lemma do_graphql_early_error_witness :
  do_graphql (fun _ => Return tt) parse_syntax_error execute_sync validator_none
    tt "{ hello" None None tt tt None [] [] =
    (Return (Sync {| gr_data := None;
                     gr_errors := [GraphQLSyntaxError "Unexpected Name"] |}),
     [StepSchemaValidate; StepParse]) /\
  do_graphql (fun _ => Return tt) parse_ok execute_sync validator_none
    tt "{ hello }" None None tt tt (Some [validator_raising]) [] [] =
    (Raise KeyError, [StepSchemaValidate; StepParse; StepValidate]).
Proof.
  split.
  - apply (do_graphql_early_error unit unit unit unit unit unit
             (fun _ => Return tt) parse_syntax_error execute_sync validator_none
             tt "{ hello" None None tt tt None []
             (GraphQLSyntaxError "Unexpected Name") [StepSchemaValidate; StepParse]);
      [reflexivity|].
    left. split; reflexivity.
  - apply (do_graphql_early_error unit unit unit unit unit unit
             (fun _ => Return tt) parse_ok execute_sync validator_none
             tt "{ hello }" None None tt tt (Some [validator_raising]) []
             KeyError [StepSchemaValidate; StepParse; StepValidate]);
      [reflexivity|].
    right. exists tt. split; [reflexivity|]. split; reflexivity.
Defined.

Lemma do_graphql_valid_document_witness :
  do_graphql (fun _ => Return tt) parse_ok execute_sync validator_none
    tt "{ hello }" None None tt tt None [] [] =
    (Return (Sync {| gr_data := Some (PyStr "Hello world!"); gr_errors := [] |}),
     [StepSchemaValidate; StepParse; StepValidate; StepExecute]).
Proof.
  apply (do_graphql_valid_document unit unit unit unit unit unit
           (fun _ => Return tt) parse_ok execute_sync validator_none
           tt "{ hello }" None None tt tt None [] tt {| vr_errors := [] |});
    reflexivity.
Defined.



Lemma graphql_no_execution_error_witness :
  graphql (fun _ => Return tt) parse_ok execute_async validator_none await_failing
    tt "{ hello }" None None tt tt None [] =
    Return {| gr_data := None; gr_errors := [ExecutionError "Resolver failed"] |}.
Proof.
  apply (proj1 (proj2 (proj2 (graphql_no_execution_error unit unit unit unit unit unit
           (fun _ => Return tt) parse_ok execute_async validator_none await_failing
           tt "{ hello }" None None tt tt None []))) (Awaitable 0) "Resolver failed");
    reflexivity.
Defined.
